(** * GPA calculator: a shallow embedding of [app.py] and its properties

    The development follows the layout of the program: the constants, the
    period classifier, the grade normaliser, the aggregation over the
    normalised table, the random record generator, the handlers of the
    sidebar form, the metric cards and tables of the page and the calls that
    build the PDF report.

    Modelling choices.
    - Python [str] values are Rocq strings holding the UTF-8 bytes of the text;
      equality and the lexicographic order of UTF-8 byte strings coincide with
      those of the code point sequences.
    - Python [float] and [int] numbers are exact rationals [Q] and integers
      [Z]: rounding, infinities and NaN are outside the model.
    - The Python built-ins the program calls on text ([str.upper],
      [str.strip], [float] on a string, [str] on a float) form the interface
      [PyBuiltins]; the program is written against the interface, and
      [ascii_builtins] is an executable instance for ASCII text.
    - A raised exception is a value of [result]; the pseudo-random source is
      a tape of naturals threaded through the generator. *)

From Stdlib Require Import Ascii String QArith Qabs Lqa Lia.
From stdpp Require Import gmap strings list fin_maps pretty sorting.

Open Scope Q_scope.
Open Scope string_scope.

(** ** Python values and exceptions *)

Inductive pyexn : Type :=
  | ValueError
  | IndexError.

Inductive result (A : Type) : Type :=
  | Ok (a : A)
  | Raise (e : pyexn).
Arguments Ok {A} a.
Arguments Raise {A} e.

#[global] Instance result_ret : MRet result := fun _ a => Ok a.
#[global] Instance result_bind : MBind result := fun _ _ k r =>
  match r with
  | Ok a => k a
  | Raise e => Raise e
  end.
#[global] Instance result_fmap : FMap result := fun _ _ f r =>
  match r with
  | Ok a => Ok (f a)
  | Raise e => Raise e
  end.

(** The dynamic union [str | float | int] of a grade value. *)
Inductive pyval : Type :=
  | PStr (s : string)
  | PInt (z : Z)
  | PFloat (q : Q).

(** The built-ins of the Python runtime used by the program on text.
    [float_of_str] is [float(s)] ([None] when it raises [ValueError]).
    Uppercasing never turns a non-empty text into the empty one. *)
Class PyBuiltins : Type := {
  str_upper : string -> string;
  str_strip : string -> string;
  float_of_str : string -> option Q;
  str_of_float : Q -> string;
  str_upper_empty : forall s, str_upper s = "" <-> s = "";
}.

Section Builtins.
Context {B : PyBuiltins}.

(** [str(v)] *)
Definition py_str (v : pyval) : string :=
  match v with
  | PStr s => s
  | PInt z => pretty z
  | PFloat q => str_of_float q
  end.

(** [float(v)] *)
Definition py_float (v : pyval) : result Q :=
  match v with
  | PStr s =>
      match float_of_str s with
      | Some q => Ok q
      | None => Raise ValueError
      end
  | PInt z => Ok (inject_Z z)
  | PFloat q => Ok q
  end.
End Builtins.

(** ** Constants *)

Definition LETTER_TO_POINTS : gmap string Q :=
  <["A" := 4.0]> (<["B" := 3.0]> (<["C" := 2.0]> (<["D" := 1.0]>
  (<["F" := 0.0]> ∅)))).

Definition RANDOM_SUBJECTS : list string :=
  [ "Математика"; "Физика"; "Химия"; "Биология"; "Тарих"; "Ағылшын тілі";
    "Информатика"; "География"; "Өнер"; "Қазақ тілі" ].

Definition EMOJI_MAP : gmap string string :=
  <["Математика" := "📐"]> (<["Физика" := "⚛️"]> (<["Химия" := "🧪"]>
  (<["Биология" := "🧬"]> (<["Тарих" := "🏛️"]> (<["Ағылшын тілі" := "📖"]>
  (<["Информатика" := "💻"]> (<["География" := "🌍"]> (<["Өнер" := "🎨"]>
  (<["Қазақ тілі" := "✍️"]> ∅))))))))).

Definition SCORE_LETTER : string := "Әріптік".
Definition SCORE_NUMERIC : string := "Сандық (0-100)".
Definition SCORE_TYPES : list string := [SCORE_LETTER; SCORE_NUMERIC].
Definition PERIODS : list string := ["Q1"; "Q2"; "Q3"; "Q4"; "S1"; "S2"].
Definition LETTER_CHOICES : list string := ["A"; "B"; "C"; "D"; "F"].

(** ** Period classifier and grade normaliser *)

Section Normaliser.
Context {B : PyBuiltins}.

(** [parse_period]; the argument is [None] for Python's [None]. *)
Definition parse_period (period_raw : option string) : string * string :=
  let value := str_upper (str_strip (default "" period_raw)) in
  if String.prefix "Q" value then ("Quarter", value)
  else if String.prefix "S" value then ("Semester", value)
  else ("Other", if decide (value = "") then "N/A" else value).

Definition score_to_points (score_type : string) (score_value : pyval)
  : result Q :=
  if decide (score_type = SCORE_LETTER) then
    Ok (default 0.0 (LETTER_TO_POINTS !! str_upper (py_str score_value)))
  else
    numeric ← py_float score_value;
    if Qle_bool 90 numeric then Ok 4.0
    else if Qle_bool 80 numeric then Ok 3.0
    else if Qle_bool 70 numeric then Ok 2.0
    else if Qle_bool 60 numeric then Ok 1.0
    else Ok 0.0.

Definition subject_with_emoji (subject : string) : string :=
  let s := str_strip subject in
  let icon := default "📘" (EMOJI_MAP !! s) in
  icon ++ " " ++ s.
End Normaliser.

(** ** An executable instance of the built-ins for ASCII text *)

Module Ascii_text.

Definition upper_char (c : ascii) : ascii :=
  let n := N_of_ascii c in
  if ((97 <=? n) && (n <=? 122))%N then ascii_of_N (n - 32) else c.

Fixpoint upper (s : string) : string :=
  match s with
  | EmptyString => EmptyString
  | String c s' => String (upper_char c) (upper s')
  end.

(** The ASCII characters for which [str.isspace] holds. *)
Definition is_space (c : ascii) : bool :=
  let n := N_of_ascii c in
  (((9 <=? n) && (n <=? 13)) || ((28 <=? n) && (n <=? 32)))%N.

Fixpoint lstrip (s : string) : string :=
  match s with
  | EmptyString => EmptyString
  | String c s' => if is_space c then lstrip s' else s
  end.

Fixpoint rstrip (s : string) : string :=
  match s with
  | EmptyString => EmptyString
  | String c s' =>
      match rstrip s' with
      | EmptyString => if is_space c then EmptyString else String c EmptyString
      | r => String c r
      end
  end.

Definition strip (s : string) : string := rstrip (lstrip s).

Definition digit_of (c : ascii) : option N :=
  let n := N_of_ascii c in
  if ((48 <=? n) && (n <=? 57))%N then Some (n - 48)%N else None.

(** Reads a run of decimal digits: the value read so far and the number of
    digits, together with the rest of the text. *)
Fixpoint read_digits (s : string) (acc : N) (cnt : nat) : N * nat * string :=
  match s with
  | EmptyString => (acc, cnt, EmptyString)
  | String c s' =>
      match digit_of c with
      | Some d => read_digits s' (10 * acc + d)%N (S cnt)
      | None => (acc, cnt, s)
      end
  end.

Definition unsigned_decimal (s : string) : option Q :=
  let '(ip, ni, rest) := read_digits s 0%N 0%nat in
  match rest with
  | EmptyString =>
      if (ni =? 0)%nat then None else Some (inject_Z (Z.of_N ip))
  | String "." rest' =>
      let '(fp, nf, rest'') := read_digits rest' 0%N 0%nat in
      match rest'' with
      | EmptyString =>
          if ((ni =? 0) && (nf =? 0))%nat then None
          else Some (Z.of_N (ip * 10 ^ N.of_nat nf + fp)
                       # Z.to_pos (10 ^ Z.of_nat nf))
      | _ => None
      end
  | _ => None
  end.

(** [float(s)] on plain decimal literals: surrounding white space, an
    optional sign, digits with an optional fraction. *)
Definition float_of_string (s : string) : option Q :=
  match strip s with
  | String "-" s' => Qopp <$> unsigned_decimal s'
  | String "+" s' => unsigned_decimal s'
  | s' => unsigned_decimal s'
  end.

(** The fractional digits of [r / d], at most [fuel] of them. *)
Fixpoint frac_digits (fuel : nat) (r d : Z) : string :=
  match fuel with
  | O => EmptyString
  | S fuel' =>
      if (r =? 0)%Z then EmptyString
      else pretty (10 * r / d)%Z ++ frac_digits fuel' ((10 * r) mod d)%Z d
  end.

(** [str(x)] of a float with a short decimal expansion, as in [85.0]. *)
Definition string_of_float (q : Q) : string :=
  let n := Z.abs (Qnum q) in
  let d := Z.pos (Qden q) in
  let frac := frac_digits 17 (n mod d)%Z d in
  (if (Qnum q <? 0)%Z then "-" else "") ++ pretty (n / d)%Z ++ "."
    ++ (if decide (frac = "") then "0" else frac).

Lemma upper_empty (s : string) : upper s = "" <-> s = "".
Proof. destruct s; simpl; split; congruence. Qed.

End Ascii_text.

Definition ascii_builtins : PyBuiltins := {|
  str_upper := Ascii_text.upper;
  str_strip := Ascii_text.strip;
  float_of_str := Ascii_text.float_of_string;
  str_of_float := Ascii_text.string_of_float;
  str_upper_empty := Ascii_text.upper_empty;
|}.

(** ** The data model *)

(** One entry of [st.session_state.records]. *)
Record GradeRecord : Type := {
  subject : string;
  credits : Q;
  score_type : string;
  grade : pyval;
  period : string;
}.

(** One row of [calc_df]: the raw columns and the derived ones. The
    [credits] column is numeric already, so [pd.to_numeric] with
    [fillna(0.0)] leaves it as it is. *)
Record NormalizedRecord : Type := {
  raw : GradeRecord;
  gpa_points : Q;
  weighted_points : Q;
  period_type : string;
  period_name : string;
  subject_display : string;
}.

(** One row of [period_gpa]. *)
Record PeriodSummary : Type := {
  ps_period_type : string;
  ps_period_name : string;
  total_weighted : Q;
  total_credits : Q;
  gpa : Q;
}.

Record StudentInfo : Type := {
  name : string;
  class_name : string;
  student_id : string;
  school : string;
  academic_year : string;
}.

Record session_state : Type := {
  records : list GradeRecord;
  student_info : StudentInfo;
}.

(** The inline notices of the page: [st.warning], [st.success], [st.info]. *)
Inductive notice : Type :=
  | warning (msg : string)
  | success (msg : string)
  | info (msg : string).

(** ** Normalisation and aggregation *)

(** [Series.sum()]: accumulation from [0] along the column. *)
Definition col_sum (col : list Q) : Q := fold_left Qplus col 0.

Definition row_credits (r : NormalizedRecord) : Q := credits (raw r).

Section Aggregator.
Context {B : PyBuiltins}.

Definition normalize_row (row : GradeRecord) : result NormalizedRecord :=
  points ← score_to_points (score_type row) (grade row);
  let parsed := parse_period (Some (period row)) in
  Ok {| raw := row;
        gpa_points := points;
        weighted_points := points * credits row;
        period_type := parsed.1;
        period_name := parsed.2;
        subject_display := subject_with_emoji (subject row) |}.

Definition normalize_df (df : list GradeRecord)
  : result (list NormalizedRecord) :=
  mapM normalize_row df.
End Aggregator.

Definition calculate_overall_gpa (data : list NormalizedRecord) : Q :=
  let total_credits := col_sum (row_credits <$> data) in
  if Qle_bool total_credits 0 then 0.0
  else col_sum (weighted_points <$> data) / total_credits.

(** The key of [groupby(["period_type", "period_name"])]. *)
Definition group_key (r : NormalizedRecord) : string * string :=
  (period_type r, period_name r).

(** Lexicographic order on the group keys, the order in which [groupby]
    lists the groups. *)
Definition key_leb (k1 k2 : string * string) : bool :=
  match String.compare k1.1 k2.1 with
  | Lt => true
  | Eq => String.leb k1.2 k2.2
  | Gt => false
  end.

Definition key_le (k1 k2 : string * string) : Prop := Is_true (key_leb k1 k2).

#[global] Instance key_le_dec k1 k2 : Decision (key_le k1 k2).
Proof. unfold key_le. apply _. Defined.

Definition group_keys (data : list NormalizedRecord) : list (string * string) :=
  merge_sort key_le (remove_dups (group_key <$> data)).

Definition group_rows (k : string * string) (data : list NormalizedRecord)
  : list NormalizedRecord :=
  filter (fun r => group_key r = k) data.

Definition summarize (data : list NormalizedRecord) (k : string * string)
  : PeriodSummary :=
  let rows := group_rows k data in
  let tw := col_sum (weighted_points <$> rows) in
  let tc := col_sum (row_credits <$> rows) in
  {| ps_period_type := k.1;
     ps_period_name := k.2;
     total_weighted := tw;
     total_credits := tc;
     gpa := if Qlt_le_dec 0 tc then tw / tc else 0.0 |}.

Definition period_gpa (data : list NormalizedRecord) : list PeriodSummary :=
  summarize data <$> group_keys data.

(** ** Display order of the trend chart *)

Definition order_map : gmap string Z :=
  <["Q1" := 1%Z]> (<["Q2" := 2%Z]> (<["Q3" := 3%Z]> (<["Q4" := 4%Z]>
  (<["S1" := 5%Z]> (<["S2" := 6%Z]> ∅))))).

(** [trend_df["period_name"].map(order_map).fillna(99)] *)
Definition order_key (p : PeriodSummary) : Z :=
  default 99%Z (order_map !! ps_period_name p).

Definition order_key_le (p1 p2 : PeriodSummary) : Prop :=
  (order_key p1 <= order_key p2)%Z.

#[global] Instance order_key_le_dec p1 p2 : Decision (order_key_le p1 p2).
Proof. unfold order_key_le. apply _. Defined.

(** [sort_values("order_key")]; the order among rows of equal key is left
    open by pandas, and this sort fixes one. *)
Definition trend_df (summaries : list PeriodSummary) : list PeriodSummary :=
  merge_sort order_key_le summaries.

(** ** The pseudo-random source

    A computation of [rand A] reads a tape of naturals, one per draw; when
    the tape is exhausted a draw reads [0]. Every outcome of [random.choice],
    [random.randint] and [random.sample] is the outcome on some tape. *)

Definition rand (A : Type) : Type := list nat -> result A * list nat.

#[global] Instance rand_ret : MRet rand := fun _ a tape => (Ok a, tape).
#[global] Instance rand_bind : MBind rand := fun _ _ k m tape =>
  match m tape with
  | (Ok a, tape') => k a tape'
  | (Raise e, tape') => (Raise e, tape')
  end.

Definition rand_raise {A} (e : pyexn) : rand A := fun tape => (Raise e, tape).

(** A draw below [n]. *)
Definition next_below (n : nat) : rand nat := fun tape =>
  match tape with
  | [] => (Ok 0%nat, [])
  | r :: tape' => (Ok (r mod n)%nat, tape')
  end.

(** [random.choice(seq)] *)
Definition random_choice {A} (seq : list A) : rand A :=
  i ← next_below (length seq);
  match seq !! i with
  | Some x => mret x
  | None => rand_raise IndexError
  end.

(** [random.randint(a, b)] *)
Definition random_randint (a b : Z) : rand Z :=
  if (b <? a)%Z then rand_raise ValueError
  else i ← next_below (Z.to_nat (b - a + 1)); mret (a + Z.of_nat i)%Z.

(** Draws [k] elements at distinct positions of [pool], in drawing order. *)
Fixpoint sample_loop {A} (k : nat) (pool : list A) : rand (list A) :=
  match k with
  | O => mret []
  | S k' =>
      i ← next_below (length pool);
      match pool !! i with
      | Some x => rest ← sample_loop k' (delete i pool); mret (x :: rest)
      | None => rand_raise IndexError
      end
  end.

(** [random.sample(population, k=k)] *)
Definition random_sample {A} (population : list A) (k : Z) : rand (list A) :=
  if ((k <? 0) || (Z.of_nat (length population) <? k))%Z
  then rand_raise ValueError
  else sample_loop (Z.to_nat k) population.

(** The body of the [for] loop of [generate_random_records]. *)
Definition random_record (subject : string) : rand GradeRecord :=
  score_type ← random_choice SCORE_TYPES;
  grade ← (if decide (score_type = SCORE_LETTER)
           then g ← random_choice LETTER_CHOICES; mret (PStr g)
           else n ← random_randint 55 100; mret (PInt n));
  credits ← random_choice [2%Z; 3%Z; 4%Z];
  period ← random_choice PERIODS;
  mret {| subject := subject;
          credits := inject_Z credits;
          score_type := score_type;
          grade := grade;
          period := period |}.

Definition generate_random_records (size : Z) : rand (list GradeRecord) :=
  subjects ← random_sample RANDOM_SUBJECTS
               (Z.min size (Z.of_nat (length RANDOM_SUBJECTS)));
  mapM random_record subjects.

(** ** The session and the handlers of the sidebar *)

Definition initial_records : list GradeRecord :=
  [ {| subject := "Математика"; credits := 4; score_type := SCORE_LETTER;
       grade := PStr "A"; period := "Q1" |};
    {| subject := "Физика"; credits := 3; score_type := SCORE_NUMERIC;
       grade := PInt 86; period := "Q1" |};
    {| subject := "Ағылшын тілі"; credits := 2; score_type := SCORE_LETTER;
       grade := PStr "B"; period := "Q2" |};
    {| subject := "Тарих"; credits := 2; score_type := SCORE_NUMERIC;
       grade := PInt 92; period := "Q2" |};
    {| subject := "Информатика"; credits := 3; score_type := SCORE_LETTER;
       grade := PStr "A"; period := "S1" |};
    {| subject := "Биология"; credits := 3; score_type := SCORE_NUMERIC;
       grade := PInt 74; period := "S2" |} ].

Definition initial_student_info : StudentInfo :=
  {| name := "Аружан Сейіт";
     class_name := "9A";
     student_id := "ST-2026-014";
     school := "№12 мектеп-лицей";
     academic_year := "2025-2026" |}.

Definition initial_state : session_state :=
  {| records := initial_records; student_info := initial_student_info |}.

Definition set_records (rs : list GradeRecord) (st : session_state)
  : session_state :=
  {| records := rs; student_info := student_info st |}.

(** A grade valid for its score type: a letter of the table, or an integer
    of [0, 100]. *)
Definition valid_grade (score_type : string) (grade : pyval) : Prop :=
  (score_type = SCORE_LETTER /\
   exists g, g ∈ LETTER_CHOICES /\ grade = PStr g) \/
  (score_type = SCORE_NUMERIC /\
   exists z, (0 <= z <= 100)%Z /\ grade = PInt z).

(** What the widgets of the form can deliver: [number_input] bounds the
    credits to [0.5, 20] and a numeric grade to the integers of [0, 100];
    the radio and the select boxes offer fixed lists. *)
Definition widget_values (credits : Q) (score_type : string) (grade : pyval)
    (period : string) : Prop :=
  0.5 <= credits <= 20 /\
  valid_grade score_type grade /\
  period ∈ PERIODS.

(** The shape of a record of the random generator. *)
Definition generated_record (r : GradeRecord) : Prop :=
  subject r ∈ RANDOM_SUBJECTS /\
  (exists c, c ∈ [2; 3; 4]%Z /\ credits r = inject_Z c) /\
  period r ∈ PERIODS /\
  valid_grade (score_type r) (grade r).

Section Handlers.
Context {B : PyBuiltins}.

(** The body run when the form [add_record_form] is submitted. *)
Definition add_record_form (subject : string) (credits : Q)
    (score_type : string) (grade : pyval) (period : string)
    (st : session_state) : session_state * notice :=
  if decide (str_strip subject = "") then
    (st, warning "Пән атауын енгізіңіз.")
  else
    (set_records
       (records st ++ [ {| subject := str_strip subject;
                          credits := credits;
                          score_type := score_type;
                          grade := grade;
                          period := period |} ]) st,
     success "Жазба қосылды.").

(** The page below the sidebar: what one run of the script displays. *)
Inductive page : Type :=
  | no_data
  | report (calc_df : list NormalizedRecord) (overall_gpa : Q)
      (summaries trend : list PeriodSummary).

Definition render (st : session_state) : result page :=
  match records st with
  | [] => Ok no_data
  | raw_df =>
      calc_df ← normalize_df raw_df;
      Ok (report calc_df (calculate_overall_gpa calc_df)
            (period_gpa calc_df) (trend_df (period_gpa calc_df)))
  end.
End Handlers.

(** The button that loads random data. *)
Definition randomize_button (st : session_state) : rand (session_state * notice) :=
  rs ← generate_random_records 6;
  mret (set_records rs st, success "Кездейсоқ деректер жүктелді.").

(** The button that clears all records. *)
Definition clear_button (st : session_state) : session_state * notice :=
  (set_records [] st, info "Барлық жазба өшірілді.").

(** The invariant of a stored record: credits not negative and a grade valid
    for the score type. *)
Definition record_invariant (r : GradeRecord) : Prop :=
  0 <= credits r /\ valid_grade (score_type r) (grade r).

(** A record within the bounds of the form's widgets. *)
Definition in_widget_range (r : GradeRecord) : Prop :=
  0.5 <= credits r <= 20 /\ valid_grade (score_type r) (grade r).

(** A row of the normalised table on the 0-4 scale. *)
Definition on_scale (r : NormalizedRecord) : Prop :=
  0 <= row_credits r /\
  0 <= gpa_points r <= 4 /\
  weighted_points r == gpa_points r * row_credits r.

(** The sessions a user can reach: from the initial one, by editing the
    student card, submitting the form with values of its widgets, loading
    random data or clearing the records. *)
Inductive reachable {B : PyBuiltins} : session_state -> Prop :=
  | reach_initial : reachable initial_state
  | reach_student_info st card :
      reachable st ->
      reachable {| records := records st; student_info := card |}
  | reach_add st subject credits score_type grade period :
      reachable st ->
      widget_values credits score_type grade period ->
      reachable (add_record_form subject credits score_type grade period st).1
  | reach_randomize st tape st' shown tape' :
      reachable st ->
      randomize_button st tape = (Ok (st', shown), tape') ->
      reachable st'
  | reach_clear st :
      reachable st ->
      reachable (clear_button st).1.



(** Summary rows in the order S2, Q1, Q3, S1, and rows with a name outside
    the canonical list first. *)
Definition summary_named (name : string) : PeriodSummary :=
  {| ps_period_type := (parse_period (B := ascii_builtins) (Some name)).1;
     ps_period_name := name;
     total_weighted := 0; total_credits := 0; gpa := 0.0 |}.

Definition example_summaries : list PeriodSummary :=
  summary_named <$> ["S2"; "Q1"; "Q3"; "S1"].

Definition example_summaries_other : list PeriodSummary :=
  summary_named <$> ["MIDTERM"; "S1"; "Q2"].



(** ** Reference definitions, in the words of the specification *)

(** The letter table with its fall-back to [0.0]. *)
Definition spec_letter_points (letter : string) : Q :=
  if decide (letter = "A") then 4.0
  else if decide (letter = "B") then 3.0
  else if decide (letter = "C") then 2.0
  else if decide (letter = "D") then 1.0
  else if decide (letter = "F") then 0.0
  else 0.0.

(** The threshold bands, each closed below and open above. *)
Inductive spec_numeric_points (x : Q) : Q -> Prop :=
  | band_4 : 90 <= x -> spec_numeric_points x 4.0
  | band_3 : 80 <= x -> x < 90 -> spec_numeric_points x 3.0
  | band_2 : 70 <= x -> x < 80 -> spec_numeric_points x 2.0
  | band_1 : 60 <= x -> x < 70 -> spec_numeric_points x 1.0
  | band_0 : x < 60 -> spec_numeric_points x 0.0.

(** The classifier: trim, uppercase, then decide by emptiness and by the
    leading letter. *)
Definition spec_parse_period {B : PyBuiltins} (raw : string) : string * string :=
  let trimmed := str_strip raw in
  let value := str_upper trimmed in
  if decide (trimmed = "") then ("Other", "N/A")
  else if String.prefix "Q" value then ("Quarter", value)
  else if String.prefix "S" value then ("Semester", value)
  else ("Other", value).

(** The position of a period name in the canonical chronological list. *)
Fixpoint index_of (x : string) (l : list string) : option nat :=
  match l with
  | [] => None
  | y :: l' => if decide (x = y) then Some 0%nat else S <$> index_of x l'
  end.

(** The display order: a period of the canonical list comes before the later
    ones of the list and before every name outside the list; names outside
    the list are not ordered among themselves. *)
Definition period_precedes (a b : string) : Prop :=
  match index_of a PERIODS, index_of b PERIODS with
  | Some i, Some j => (i < j)%nat
  | Some _, None => True
  | None, _ => False
  end.


(** The sum of a column of the normalised table. *)
Definition spec_total (column : NormalizedRecord -> Q)
    (data : list NormalizedRecord) : Q :=
  foldr (fun r acc => column r + acc) 0 data.

(** ** The rest of the page: metric cards, tables by period, chart labels *)

(** The cards [len(calc_df)] and [calc_df['subject'].nunique()]. *)
Definition record_count (calc_df : list NormalizedRecord) : nat :=
  length calc_df.

Definition subject_count (calc_df : list NormalizedRecord) : nat :=
  length (remove_dups ((fun r => subject (raw r)) <$> calc_df)).

(** The order of [sort_values("period_name")] on the rows of a table by
    period. *)
Definition name_le (a b : string * Q) : Prop := Is_true (String.leb a.1 b.1).

#[global] Instance name_le_dec a b : Decision (name_le a b).
Proof. unfold name_le. apply _. Defined.

(** [period_gpa[period_gpa["period_type"] == ty][["period_name", "gpa"]]
    .sort_values("period_name")] *)
Definition period_table (ty : string) (summaries : list PeriodSummary)
  : list (string * Q) :=
  merge_sort name_le
    ((fun s => (ps_period_name s, gpa s))
       <$> filter (fun s => ps_period_type s = ty) summaries).

Definition q_df (summaries : list PeriodSummary) : list (string * Q) :=
  period_table "Quarter" summaries.

Definition sem_df (summaries : list PeriodSummary) : list (string * Q) :=
  period_table "Semester" summaries.

(** What a column of the period section shows: the notice of an empty table
    or the table. *)
Inductive panel : Type :=
  | panel_info (msg : string)
  | panel_table (rows : list (string * Q)).

Definition quarter_panel (summaries : list PeriodSummary) : panel :=
  match q_df summaries with
  | [] => panel_info "Тоқсан бойынша дерек жоқ."
  | rows => panel_table rows
  end.

Definition semester_panel (summaries : list PeriodSummary) : panel :=
  match sem_df summaries with
  | [] => panel_info "Семестр бойынша дерек жоқ."
  | rows => panel_table rows
  end.

(** The dictionary of [trend_df["period_type"].replace(...)]; [replace]
    leaves a value outside the dictionary as it is. *)
Definition PERIOD_TYPE_KZ : gmap string string :=
  <["Quarter" := "Тоқсан"]> (<["Semester" := "Семестр"]>
  (<["Other" := "Басқа"]> ∅)).

Definition period_type_kz (period_type : string) : string :=
  default period_type (PERIOD_TYPE_KZ !! period_type).

(** ** The PDF report

    The report is the sequence of calls made on the canvas. *)

Inductive canvas_op : Type :=
  | setTitle (title : string)
  | setFont (font_name : string) (size : Z)
  | drawString (x y : Q) (text : string)
  | showPage
  | save.

(** The height of [reportlab.lib.pagesizes.A4]: 297 mm, with
    [mm = inch / 2.54 * 0.1] and [inch = 72]. *)
Definition A4_height : Q := 297 * (72 / 2.54 * 0.1).

(** The font of the report: Arial when its file exists, Helvetica
    otherwise. *)
Definition pdf_font (arial_exists : bool) : string :=
  if arial_exists then "ArialUnicode" else "Helvetica".

(** The loop [for line in lines] of [build_pdf_bytes], from the pen
    height [y]. *)
Fixpoint draw_lines (font_name : string) (page_height : Q)
    (lines : list string) (y : Q) : list canvas_op :=
  match lines with
  | [] => []
  | line :: rest =>
      if Qlt_le_dec y 40 then
        showPage :: setFont font_name 12
          :: drawString 40 (page_height - 40) line
          :: draw_lines font_name page_height rest (page_height - 40 - 18)
      else
        drawString 40 y line
          :: draw_lines font_name page_height rest (y - 18)
  end.

Section Report.
(** The text of the credits and grade cells of a row of the table, [str] of
    the value pandas holds for the cell; the type of a column is inferred
    from the whole table. *)
Variable cell_text : list GradeRecord -> GradeRecord -> string * string.

(** The list [lines] of [build_pdf_bytes]; [now] is the formatted time of
    the call. *)
Definition report_lines (now : string) (report_df : list GradeRecord)
    (card : StudentInfo) : list string :=
  [ "GPA және үлгерім есебі";
    "Құрастырылған уақыты: " ++ now;
    "";
    "Оқушы: " ++ name card;
    "Сынып: " ++ class_name card;
    "ID: " ++ student_id card;
    "Мектеп: " ++ school card;
    "Оқу жылы: " ++ academic_year card;
    "";
    "Пәндер:" ]
  ++ ((fun row =>
         "- " ++ subject row ++ " | Период: " ++ period row
           ++ " | Кредит: " ++ (cell_text report_df row).1
           ++ " | Баға: " ++ (cell_text report_df row).2)
        <$> report_df).

(** [build_pdf_bytes] on the page height [page_height] ([A4_height] in the
    program). *)
Definition build_pdf_bytes (arial_exists : bool) (now : string)
    (page_height : Q) (report_df : list GradeRecord) (card : StudentInfo)
  : list canvas_op :=
  let font_name := pdf_font arial_exists in
  [setTitle "GPA және үлгерім есебі"; setFont font_name 12]
  ++ draw_lines font_name page_height (report_lines now report_df card)
       (page_height - 40)
  ++ [save].
End Report.

(** The texts drawn and the number of page breaks of a sequence of calls. *)
Definition drawn_texts (ops : list canvas_op) : list string :=
  omap (fun op => match op with drawString _ _ t => Some t | _ => None end) ops.

Definition is_page_break (op : canvas_op) : bool :=
  match op with showPage => true | _ => false end.

Definition page_breaks (ops : list canvas_op) : nat :=
  length (filter (fun op => Is_true (is_page_break op)) ops).



(** The cells of a table whose credits are whole numbers, on the ASCII
    instance, for the worked examples of the report. *)
Definition example_cell_text (report_df : list GradeRecord)
    (row : GradeRecord) : string * string :=
  (pretty (Qnum (credits row)), py_str (B := ascii_builtins) (grade row)).

(** * Properties *)

(** ** Grade normaliser *)

Lemma letter_table_lookup (letter : string) :
  default 0.0 (LETTER_TO_POINTS !! letter) = spec_letter_points letter.
Proof.
  unfold spec_letter_points, LETTER_TO_POINTS.
  repeat (case_decide;
          [ subst letter; reflexivity
          | rewrite lookup_insert_ne by congruence ]).
  by rewrite lookup_empty.
Qed.

Lemma Qle_bool_false (x y : Q) : Qle_bool x y = false -> y < x.
Proof.
  intros Hb. apply Qnot_le_lt. intros Hle.
  apply Qle_bool_iff in Hle. congruence.
Qed.

Section Normaliser_facts.
Context {B : PyBuiltins}.

Lemma score_to_points_letter (v : pyval) :
  score_to_points SCORE_LETTER v
  = Ok (spec_letter_points (str_upper (py_str v))).
Proof.
  unfold score_to_points. rewrite decide_True by reflexivity.
  by rewrite letter_table_lookup.
Qed.

Lemma score_to_points_numeric_eq (score_type : string) (v : pyval) :
  score_type <> SCORE_LETTER ->
  score_to_points score_type v =
    (numeric ← py_float v;
     if Qle_bool 90 numeric then Ok 4.0
     else if Qle_bool 80 numeric then Ok 3.0
     else if Qle_bool 70 numeric then Ok 2.0
     else if Qle_bool 60 numeric then Ok 1.0
     else Ok 0.0).
Proof. intros Hne. unfold score_to_points. by rewrite decide_False. Qed.

Lemma score_to_points_bands (score_type : string) (v : pyval) (x : Q) :
  score_type <> SCORE_LETTER ->
  py_float v = Ok x ->
  exists p, score_to_points score_type v = Ok p /\ spec_numeric_points x p.
Proof.
  intros Hne Hx. rewrite score_to_points_numeric_eq by done.
  rewrite Hx. cbn.
  destruct (Qle_bool 90 x) eqn:H90.
  { eexists; split; [done|]. apply band_4. by apply Qle_bool_iff. }
  apply Qle_bool_false in H90.
  destruct (Qle_bool 80 x) eqn:H80.
  { eexists; split; [done|]. apply band_3; [by apply Qle_bool_iff|done]. }
  apply Qle_bool_false in H80.
  destruct (Qle_bool 70 x) eqn:H70.
  { eexists; split; [done|]. apply band_2; [by apply Qle_bool_iff|done]. }
  apply Qle_bool_false in H70.
  destruct (Qle_bool 60 x) eqn:H60.
  { eexists; split; [done|]. apply band_1; [by apply Qle_bool_iff|done]. }
  apply Qle_bool_false in H60.
  eexists; split; [done|]. by apply band_0.
Qed.

End Normaliser_facts.

Lemma numeric_is_not_letter : SCORE_NUMERIC <> SCORE_LETTER.
Proof. discriminate. Qed.


(** ** Period classifier *)

(** C3. [parse_period] is a total function that agrees, on every text, with
    the classifier of the specification: the trimmed input empty gives
    [("Other", "N/A")], a leading [Q] of the trimmed uppercased value gives
    [Quarter], a leading [S] gives [Semester], anything else [Other], each
    with the uppercased value; the absent text is classified as the empty
    one. On the ASCII instance, [q1], [S2], [midterm] and the empty text give
    [(Quarter, Q1)], [(Semester, S2)], [(Other, MIDTERM)] and [(Other, N/A)]. *)
Theorem parse_period_spec :
  (forall (B : PyBuiltins) (raw : string),
     parse_period (Some raw) = spec_parse_period raw) /\
  (forall B : PyBuiltins, parse_period None = parse_period (Some "")) /\
  parse_period (B := ascii_builtins) (Some "q1") = ("Quarter", "Q1") /\
  parse_period (B := ascii_builtins) (Some "S2") = ("Semester", "S2") /\
  parse_period (B := ascii_builtins) (Some "midterm") = ("Other", "MIDTERM") /\
  parse_period (B := ascii_builtins) (Some "") = ("Other", "N/A").
Proof.
  split; [|split; [done|repeat split; vm_compute; reflexivity]].
  intros B raw. unfold parse_period, spec_parse_period.
  change (default "" (Some raw)) with raw. cbv zeta.
  destruct (decide (str_strip raw = "")) as [Hempty|Hfull].
  - rewrite Hempty.
    assert (str_upper "" = "") as -> by (by apply str_upper_empty).
    reflexivity.
  - assert (str_upper (str_strip raw) <> "") as Hvalue.
    { intros Hv. by apply Hfull, str_upper_empty. }
    destruct (String.prefix "Q" _); [done|].
    destruct (String.prefix "S" _); [done|].
    by rewrite decide_False.
Qed.

(** ** Aggregator: the overall GPA *)

Lemma fold_left_Qplus (col : list Q) (a : Q) :
  fold_left Qplus col a == a + foldr Qplus 0 col.
Proof.
  revert a. induction col as [|x col IH]; intros a; simpl.
  - ring.
  - rewrite IH. ring.
Qed.

Lemma col_sum_total (column : NormalizedRecord -> Q)
    (data : list NormalizedRecord) :
  col_sum (column <$> data) == spec_total column data.
Proof.
  unfold col_sum. rewrite fold_left_Qplus, Qplus_0_l.
  induction data as [|r data IH]; simpl; [reflexivity|].
  by rewrite IH.
Qed.

Lemma overall_gpa_zero (data : list NormalizedRecord) :
  spec_total row_credits data <= 0 -> calculate_overall_gpa data = 0.0.
Proof.
  intros Hle. unfold calculate_overall_gpa.
  rewrite <- col_sum_total in Hle.
  apply Qle_bool_iff in Hle. by rewrite Hle.
Qed.

Lemma overall_gpa_mean (data : list NormalizedRecord) :
  0 < spec_total row_credits data ->
  calculate_overall_gpa data
  == spec_total weighted_points data / spec_total row_credits data.
Proof.
  intros Hlt. unfold calculate_overall_gpa.
  destruct (Qle_bool _ 0) eqn:Hb.
  - apply Qle_bool_iff in Hb. rewrite col_sum_total in Hb.
    exfalso. by apply (Qlt_not_le _ _ Hlt).
  - by rewrite !col_sum_total.
Qed.



(** ** The random generator *)

Lemma rand_bind_ok {A C} (m : rand A) (k : A -> rand C) tape a tape' :
  m tape = (Ok a, tape') -> (m ≫= k) tape = k a tape'.
Proof. intros Hm. unfold mbind, rand_bind. by rewrite Hm. Qed.

Lemma rand_bind_raise {A C} (m : rand A) (k : A -> rand C) tape e tape' :
  m tape = (Raise e, tape') -> (m ≫= k) tape = (Raise e, tape').
Proof. intros Hm. unfold mbind, rand_bind. by rewrite Hm. Qed.

Lemma next_below_ok (n : nat) tape :
  exists i tape', next_below n tape = (Ok i, tape') /\ (0 < n -> i < n)%nat.
Proof.
  destruct tape as [|r tape]; simpl; eexists _, _; (split; [done|]).
  - done.
  - intros Hn. apply Nat.mod_upper_bound. lia.
Qed.

Lemma random_choice_ok {A} (seq : list A) tape :
  seq <> [] ->
  exists x tape', random_choice seq tape = (Ok x, tape') /\ x ∈ seq.
Proof.
  intros Hne. unfold random_choice.
  destruct (next_below_ok (length seq) tape) as (i & tape' & Hdraw & Hi).
  rewrite (rand_bind_ok _ _ _ _ _ Hdraw).
  assert (i < length seq)%nat as Hlt.
  { apply Hi. destruct seq; [done|simpl; lia]. }
  destruct (lookup_lt_is_Some_2 seq i Hlt) as [x Hx]. rewrite Hx.
  exists x, tape'. split; [done|]. by eapply list_elem_of_lookup_2.
Qed.

Lemma random_randint_ok (a b : Z) tape :
  (a <= b)%Z ->
  exists z tape', random_randint a b tape = (Ok z, tape') /\ (a <= z <= b)%Z.
Proof.
  intros Hab. unfold random_randint.
  destruct (Z.ltb_spec b a) as [?|_]; [lia|].
  destruct (next_below_ok (Z.to_nat (b - a + 1)) tape)
    as (i & tape' & Hdraw & Hi).
  rewrite (rand_bind_ok _ _ _ _ _ Hdraw).
  exists (a + Z.of_nat i)%Z, tape'. split; [done|].
  assert (i < Z.to_nat (b - a + 1))%nat by (apply Hi; lia). lia.
Qed.

Lemma sample_loop_ok {A} (k : nat) (pool : list A) tape :
  (k <= length pool)%nat ->
  exists l tape',
    sample_loop k pool tape = (Ok l, tape') /\ length l = k /\ l ⊆+ pool.
Proof.
  revert pool tape. induction k as [|k IH]; intros pool tape Hk; simpl.
  - exists [], tape. repeat split. apply submseteq_nil_l.
  - destruct (next_below_ok (length pool) tape) as (i & tape1 & Hdraw & Hi).
    rewrite (rand_bind_ok _ _ _ _ _ Hdraw).
    assert (i < length pool)%nat as Hlt by (apply Hi; lia).
    destruct (lookup_lt_is_Some_2 pool i Hlt) as [x Hx]. rewrite Hx.
    destruct (IH (delete i pool) tape1) as (rest & tape2 & Hrest & Hlen & Hsub).
    { rewrite length_delete by eauto. lia. }
    rewrite (rand_bind_ok _ _ _ _ _ Hrest).
    exists (x :: rest), tape2. split; [done|]. split; [simpl; lia|].
    rewrite (delete_Permutation pool i x Hx). by apply submseteq_skip.
  Qed.

Lemma random_sample_ok {A} (population : list A) (k : Z) tape :
  (0 <= k <= Z.of_nat (length population))%Z ->
  exists l tape',
    random_sample population k tape = (Ok l, tape') /\
    length l = Z.to_nat k /\ l ⊆+ population.
Proof.
  intros Hk. unfold random_sample.
  destruct (Z.ltb_spec k 0) as [?|_]; [lia|].
  destruct (Z.ltb_spec (Z.of_nat (length population)) k) as [?|_]; [lia|].
  apply sample_loop_ok. lia.
Qed.

Lemma random_sample_negative {A} (population : list A) (k : Z) tape :
  (k < 0)%Z -> random_sample population k tape = (Raise ValueError, tape).
Proof.
  intros Hk. unfold random_sample.
  by destruct (Z.ltb_spec k 0) as [_|?]; [|lia].
Qed.

Lemma submseteq_NoDup {A} (l k : list A) : l ⊆+ k -> NoDup k -> NoDup l.
Proof.
  intros Hsub Hk. apply submseteq_sublist_r in Hsub as (l' & Hperm & Hsl).
  rewrite Hperm. by eapply sublist_NoDup.
Qed.

Lemma random_record_ok (subject0 : string) tape :
  subject0 ∈ RANDOM_SUBJECTS ->
  exists r tape',
    random_record subject0 tape = (Ok r, tape') /\
    subject r = subject0 /\ generated_record r.
Proof.
  intros Hsubj. unfold random_record.
  destruct (random_choice_ok SCORE_TYPES tape) as (ty & t1 & Hty & Hty_in);
    [done|].
  rewrite (rand_bind_ok _ _ _ _ _ Hty).
  assert (exists g t2,
    (if decide (ty = SCORE_LETTER)
     then g ← random_choice LETTER_CHOICES; mret (PStr g)
     else n ← random_randint 55 100; mret (PInt n)) t1 = (Ok g, t2) /\
    valid_grade ty g) as (g & t2 & Hg & Hvalid).
  { case_decide as Hletter.
    - destruct (random_choice_ok LETTER_CHOICES t1) as (c & t2 & Hc & Hc_in);
        [done|].
      exists (PStr c), t2. rewrite (rand_bind_ok _ _ _ _ _ Hc).
      split; [done|]. left. eauto.
    - destruct (random_randint_ok 55 100 t1) as (z & t2 & Hz & Hz_in);
        [lia|].
      exists (PInt z), t2. rewrite (rand_bind_ok _ _ _ _ _ Hz).
      split; [done|]. right. split.
      + unfold SCORE_TYPES in Hty_in.
        apply elem_of_cons in Hty_in as [?|Hty_in]; [done|].
        by apply list_elem_of_singleton in Hty_in.
      + exists z. split; [lia|done]. }
  rewrite (rand_bind_ok _ _ _ _ _ Hg).
  destruct (random_choice_ok [2; 3; 4]%Z t2) as (c & t3 & Hc & Hc_in); [done|].
  rewrite (rand_bind_ok _ _ _ _ _ Hc).
  destruct (random_choice_ok PERIODS t3) as (p & t4 & Hp & Hp_in); [done|].
  rewrite (rand_bind_ok _ _ _ _ _ Hp).
  eexists _, t4. split; [done|]. split; [done|].
  unfold generated_record; simpl. eauto 10.
Qed.

Lemma mapM_random_record_ok (subjects : list string) tape :
  Forall (fun s => s ∈ RANDOM_SUBJECTS) subjects ->
  exists rs tape',
    mapM random_record subjects tape = (Ok rs, tape') /\
    subject <$> rs = subjects /\ Forall generated_record rs.
Proof.
  revert tape. induction subjects as [|s subjects IH]; intros tape Hall.
  - exists [], tape. by repeat split.
  - inversion Hall as [|? ? Hs Hrest]; subst. simpl.
    destruct (random_record_ok s tape Hs) as (r & t1 & Hr & Hsubj & Hgen).
    rewrite (rand_bind_ok _ _ _ _ _ Hr).
    destruct (IH t1 Hrest) as (rs & t2 & Hrs & Hsubjs & Hgens).
    rewrite (rand_bind_ok _ _ _ _ _ Hrs).
    exists (r :: rs), t2. split; [done|]. split.
    + rewrite fmap_cons. by f_equal.
    + by constructor.
Qed.

Lemma RANDOM_SUBJECTS_NoDup : NoDup RANDOM_SUBJECTS.
Proof. compute_done. Qed.

Lemma generate_random_records_ok (size : Z) tape :
  (0 <= size)%Z ->
  exists rs tape',
    generate_random_records size tape = (Ok rs, tape') /\
    length rs = Z.to_nat (Z.min size 10) /\
    NoDup (subject <$> rs) /\
    Forall generated_record rs.
Proof.
  intros Hsize. unfold generate_random_records.
  change (Z.of_nat (length RANDOM_SUBJECTS)) with 10%Z.
  destruct (random_sample_ok RANDOM_SUBJECTS (Z.min size 10) tape)
    as (subjects & t1 & Hsample & Hlen & Hsub).
  { change (Z.of_nat (length RANDOM_SUBJECTS)) with 10%Z. lia. }
  rewrite (rand_bind_ok _ _ _ _ _ Hsample).
  destruct (mapM_random_record_ok subjects t1) as (rs & t2 & Hrs & Hsubj & Hgen).
  { apply Forall_forall. intros s Hs. by eapply elem_of_submseteq. }
  exists rs, t2. split; [done|]. split; [|split; [|done]].
  - rewrite <- Hlen, <- Hsubj. by rewrite length_fmap.
  - rewrite Hsubj. eapply submseteq_NoDup; [done|]. apply RANDOM_SUBJECTS_NoDup.
Qed.

Lemma generate_random_records_negative (size : Z) tape :
  (size < 0)%Z ->
  generate_random_records size tape = (Raise ValueError, tape).
Proof.
  intros Hsize. unfold generate_random_records.
  apply rand_bind_raise, random_sample_negative. lia.
Qed.

(** C9. For every count [n] and every tape of random draws,
    [generate_random_records n] returns exactly [min n 10] records, with
    pairwise distinct subjects of the catalog of ten, each with credits
    among 2, 3 and 4, a period of the fixed six and a grade valid for its
    score type (a letter of A, B, C, D, F, or an integer of [0, 100]); the
    randomise button replaces all the records of the session with those
    generated for the count 6. *)
Theorem generate_random_records_shape :
  (forall (n : nat) (tape : list nat),
     exists rs tape',
       generate_random_records (Z.of_nat n) tape = (Ok rs, tape') /\
       length rs = Nat.min n (length RANDOM_SUBJECTS) /\
       length RANDOM_SUBJECTS = 10%nat /\
       NoDup (subject <$> rs) /\
       Forall generated_record rs) /\
  (forall (st : session_state) (tape : list nat),
     exists rs tape',
       generate_random_records 6 tape = (Ok rs, tape') /\
       length rs = 6%nat /\
       randomize_button st tape
       = (Ok (set_records rs st, success "Кездейсоқ деректер жүктелді."),
          tape') /\
       records (set_records rs st) = rs).
Proof.
  split.
  - intros n tape.
    destruct (generate_random_records_ok (Z.of_nat n) tape)
      as (rs & tape' & Hgen & Hlen & Hnodup & Hall); [lia|].
    exists rs, tape'. split; [done|]. split; [|by repeat split].
    rewrite Hlen. change (length RANDOM_SUBJECTS) with 10%nat. lia.
  - intros st tape.
    destruct (generate_random_records_ok 6 tape)
      as (rs & tape' & Hgen & Hlen & _); [lia|].
    exists rs, tape'. split; [done|]. split; [done|]. split; [|done].
    unfold randomize_button. by rewrite (rand_bind_ok _ _ _ _ _ Hgen).
Qed.

(** The claim above on a sample tape, for the counts 6 and 60. *)
Lemma generate_random_records_shape_witness :
  (exists rs tape',
     generate_random_records 6 [3; 1; 4; 1; 5; 9; 2; 6]%nat = (Ok rs, tape') /\
     length rs = 6%nat /\
     NoDup (subject <$> rs) /\
     Forall generated_record rs) /\
  (exists rs tape',
     generate_random_records 60 [2; 7; 1; 8; 2; 8]%nat = (Ok rs, tape') /\
     length rs = 10%nat).
Proof.
  split.
  - destruct (proj1 generate_random_records_shape 6%nat
                [3; 1; 4; 1; 5; 9; 2; 6]%nat)
      as (rs & tape' & Hgen & Hlen & _ & Hnodup & Hall).
    by exists rs, tape'.
  - destruct (proj1 generate_random_records_shape 60%nat
                [2; 7; 1; 8; 2; 8]%nat)
      as (rs & tape' & Hgen & Hlen & _).
    by exists rs, tape'.
Defined.

(** ** The form handler *)

Lemma add_record_form_append {B : PyBuiltins} (subject : string) (credits : Q)
    (score_type : string) (grade : pyval) (period : string)
    (st : session_state) :
  str_strip subject <> "" ->
  add_record_form subject credits score_type grade period st
  = (set_records
       (records st ++ [ {| subject := str_strip subject; credits := credits;
                           score_type := score_type; grade := grade;
                           period := period |} ]) st,
     success "Жазба қосылды.").
Proof. intros Hfull. unfold add_record_form. by rewrite decide_False. Qed.

(** C7. A submission whose subject is blank after trimming is rejected with
    an inline warning and leaves the session, hence the number of stored
    records, as it was; a submission whose subject is not blank appends the
    record, with the trimmed subject, at the end of the store. *)
Theorem add_record_form_spec :
  forall (B : PyBuiltins) (subject : string) (credits : Q)
         (score_type : string) (grade : pyval) (period : string)
         (st : session_state),
    let after :=
      add_record_form subject credits score_type grade period st in
    (str_strip subject = "" ->
     after = (st, warning "Пән атауын енгізіңіз.") /\
     length (records after.1) = length (records st)) /\
    (str_strip subject <> "" ->
     records after.1
     = (records st ++ [ {| subject := str_strip subject; credits := credits;
                           score_type := score_type; grade := grade;
                           period := period |} ])%list /\
     length (records after.1) = S (length (records st)) /\
     student_info after.1 = student_info st /\
     after.2 = success "Жазба қосылды.").
Proof.
  intros B subject0 credits0 score_type0 grade0 period0 st after.
  subst after. unfold add_record_form. split; intros Hsubject.
  - rewrite decide_True by done. done.
  - rewrite decide_False by done. simpl.
    rewrite length_app. simpl. repeat split. lia.
Qed.

(** The claim above on the initial session: a blank subject is refused, a
    padded one is stored trimmed. *)
Lemma add_record_form_spec_witness :
  (str_strip (PyBuiltins := ascii_builtins) "   " = "" /\
   add_record_form (B := ascii_builtins) "   " 3 SCORE_LETTER (PStr "A") "Q1"
     initial_state
   = (initial_state, warning "Пән атауын енгізіңіз.")) /\
  (str_strip (PyBuiltins := ascii_builtins) " Chemistry " <> "" /\
   length (records (add_record_form (B := ascii_builtins) " Chemistry " 3
                      SCORE_LETTER (PStr "A") "Q1" initial_state).1)
   = 7%nat).
Proof.
  split.
  - split; [reflexivity|].
    apply (add_record_form_spec ascii_builtins "   " 3 SCORE_LETTER (PStr "A")
             "Q1" initial_state).
    reflexivity.
  - assert (str_strip (PyBuiltins := ascii_builtins) " Chemistry " <> "")
      as Hfull by (vm_compute; discriminate).
    split; [exact Hfull|].
    apply (add_record_form_spec ascii_builtins " Chemistry " 3 SCORE_LETTER
             (PStr "A") "Q1" initial_state).
    exact Hfull.
Defined.

(** ** Normalisation of a table *)

Lemma mapM_result_cons {A C} (f : A -> result C) (x : A) (l : list A) :
  mapM f (x :: l)
  = match f x with
    | Ok y => match mapM f l with Ok k => Ok (y :: k) | Raise e => Raise e end
    | Raise e => Raise e
    end.
Proof. reflexivity. Qed.

Lemma mapM_result_Forall2 {A C} (f : A -> result C) (l : list A) (l' : list C) :
  mapM f l = Ok l' -> Forall2 (fun x y => f x = Ok y) l l'.
Proof.
  revert l'. induction l as [|x l IH]; intros l' Hl.
  - injection Hl as <-. constructor.
  - rewrite mapM_result_cons in Hl.
    destruct (f x) as [y|] eqn:Hx; [|done].
    destruct (mapM f l) as [k|] eqn:Hk; [|done].
    injection Hl as <-. constructor; [done|]. by apply IH.
Qed.

Lemma mapM_result_ok {A C} (f : A -> result C) (l : list A) :
  Forall (fun x => exists y, f x = Ok y) l -> exists l', mapM f l = Ok l'.
Proof.
  induction 1 as [|x l [y Hy] _ [l' Hl']].
  - by eexists.
  - rewrite mapM_result_cons, Hy, Hl'. by eexists.
Qed.


Section Normalise_facts.
Context {B : PyBuiltins}.

Lemma score_to_points_range (score_type : string) (v : pyval) (p : Q) :
  score_to_points score_type v = Ok p -> p ∈ [0.0; 1.0; 2.0; 3.0; 4.0].
Proof.
  unfold score_to_points. case_decide.
  - rewrite letter_table_lookup. unfold spec_letter_points.
    intros [= <-]. repeat case_decide; set_solver.
  - destruct (py_float v) as [x|]; [|done]. cbn.
    repeat (destruct (Qle_bool _ x)); intros [= <-]; set_solver.
Qed.

Lemma score_to_points_valid (score_type : string) (v : pyval) :
  valid_grade score_type v -> exists p, score_to_points score_type v = Ok p.
Proof.
  intros [[-> _]|[-> (z & _ & ->)]].
  - rewrite score_to_points_letter. by eexists.
  - destruct (score_to_points_bands SCORE_NUMERIC (PInt z) (inject_Z z))
      as (p & Hp & _); [apply numeric_is_not_letter|done|by eexists].
Qed.

Lemma normalize_row_inv (row : GradeRecord) (r : NormalizedRecord) :
  normalize_row row = Ok r ->
  raw r = row /\
  score_to_points (score_type row) (grade row) = Ok (gpa_points r) /\
  weighted_points r = gpa_points r * credits row /\
  (period_type r, period_name r) = parse_period (Some (period row)).
Proof.
  unfold normalize_row, mbind, result_bind.
  destruct (score_to_points _ _) as [p|]; [|done].
  intros [= <-]. simpl. by destruct (parse_period _).
Qed.

Lemma normalize_row_on_scale (row : GradeRecord) (r : NormalizedRecord) :
  0 <= credits row -> normalize_row row = Ok r -> on_scale r.
Proof.
  intros Hcredits Hr.
  apply normalize_row_inv in Hr as (Hraw & Hpoints & Hweighted & _).
  apply score_to_points_range in Hpoints.
  unfold on_scale, row_credits. rewrite Hraw, Hweighted.
  split; [done|]. split; [|reflexivity].
  repeat (apply elem_of_cons in Hpoints as [->|Hpoints]; [by split|]).
  by apply not_elem_of_nil in Hpoints.
Qed.

Lemma normalize_df_on_scale (df : list GradeRecord)
    (data : list NormalizedRecord) :
  Forall (fun row => 0 <= credits row) df ->
  normalize_df df = Ok data -> Forall on_scale data.
Proof.
  intros Hdf Hdata. apply mapM_result_Forall2 in Hdata.
  induction Hdata as [|row r df data Hr _ IH]; [constructor|].
  inversion Hdf; subst. constructor; [|by apply IH].
  by eapply normalize_row_on_scale.
Qed.

Lemma normalize_df_valid (df : list GradeRecord) :
  Forall record_invariant df -> exists data, normalize_df df = Ok data.
Proof.
  intros Hdf. apply mapM_result_ok. eapply Forall_impl; [exact Hdf|].
  intros row [_ Hgrade]. unfold normalize_row, mbind, result_bind.
  destruct (score_to_points_valid _ _ Hgrade) as [p ->]. by eexists.
Qed.

End Normalise_facts.

(** ** The overall GPA stays on the 0-4 scale *)

Lemma totals_on_scale (data : list NormalizedRecord) :
  Forall on_scale data ->
  0 <= spec_total row_credits data /\
  0 <= spec_total weighted_points data /\
  spec_total weighted_points data <= 4 * spec_total row_credits data.
Proof.
  induction 1 as [|r data (Hc & [Hp0 Hp4] & Hw) _ (IHc & IHw0 & IHw4)]; simpl.
  - repeat split; lra.
  - rewrite Hw.
    assert (0 <= gpa_points r * row_credits r) by nra.
    assert (gpa_points r * row_credits r <= 4 * row_credits r) by nra.
    repeat split; lra.
Qed.

Lemma overall_gpa_on_scale (data : list NormalizedRecord) :
  Forall on_scale data -> 0 <= calculate_overall_gpa data <= 4.
Proof.
  intros Hdata.
  destruct (totals_on_scale data Hdata) as (Hc & Hw0 & Hw4).
  destruct (Qlt_le_dec 0 (spec_total row_credits data)) as [Hpos|Hzero].
  - rewrite (overall_gpa_mean data Hpos). split.
    + apply Qle_shift_div_l; [done|]. lra.
    + by apply Qle_shift_div_r.
  - rewrite (overall_gpa_zero data Hzero). split; [done|]. by compute.
Qed.

Section Reachable_facts.
Context {B : PyBuiltins}.

Lemma initial_records_in_range : Forall in_widget_range initial_records.
Proof.
  unfold initial_records.
  repeat apply Forall_cons_2; try apply Forall_nil_2;
    (split; [by compute|]); unfold valid_grade; simpl.
  - left. split; [done|]. exists "A". split; [set_solver|done].
  - right. split; [done|]. exists 86%Z. split; [lia|done].
  - left. split; [done|]. exists "B". split; [set_solver|done].
  - right. split; [done|]. exists 92%Z. split; [lia|done].
  - left. split; [done|]. exists "A". split; [set_solver|done].
  - right. split; [done|]. exists 74%Z. split; [lia|done].
Qed.

Lemma generated_record_in_range (r : GradeRecord) :
  generated_record r -> in_widget_range r.
Proof.
  intros (_ & (c & Hc & Hcredits) & _ & Hgrade). split; [|done].
  rewrite Hcredits.
  repeat (apply elem_of_cons in Hc as [->|Hc]; [by compute|]).
  by apply not_elem_of_nil in Hc.
Qed.

Lemma in_widget_range_invariant (r : GradeRecord) :
  in_widget_range r -> record_invariant r.
Proof. intros [[Hlow _] Hgrade]. split; [lra|done]. Qed.

(** Every stored record of a reachable session is within the bounds of the
    widgets. *)
Lemma reachable_in_range (st : session_state) :
  reachable st -> Forall in_widget_range (records st).
Proof.
  induction 1 as [|st card _ IH|st subj cr ty gr per _ IH Hwidget
                  |st tape st' shown tape' _ IH Hrandom|st _ IH].
  - apply initial_records_in_range.
  - exact IH.
  - unfold add_record_form. case_decide; [exact IH|]. simpl.
    apply Forall_app. split; [exact IH|]. apply Forall_singleton.
    destruct Hwidget as (Hcredits & Hgrade & _). by split.
  - destruct (generate_random_records_ok 6 tape)
      as (rs & tape1 & Hgen & _ & _ & Hall); [lia|].
    unfold randomize_button in Hrandom.
    rewrite (rand_bind_ok _ _ _ _ _ Hgen) in Hrandom.
    injection Hrandom as <- _ _. simpl.
    eapply Forall_impl; [exact Hall|]. apply generated_record_in_range.
  - apply Forall_nil_2.
Qed.

(** Every stored record of a reachable session satisfies the invariant. *)
Lemma reachable_invariant (st : session_state) :
  reachable st -> Forall record_invariant (records st).
Proof.
  intros Hreach. eapply Forall_impl; [by apply reachable_in_range|].
  apply in_widget_range_invariant.
Qed.

(** On a reachable session the page is always produced. *)
Lemma reachable_render (st : session_state) :
  reachable st -> exists shown, render st = Ok shown.
Proof.
  intros Hreach. apply reachable_invariant in Hreach.
  unfold render. destruct (records st) as [|row df] eqn:Hrecords.
  - by eexists.
  - destruct (normalize_df_valid _ Hreach) as [data ->]. by eexists.
Qed.
End Reachable_facts.



(** ** Grades that do not convert, values out of range *)

Section Unchecked_values.
Context {B : PyBuiltins}.


End Unchecked_values.







(** ** Aggregator: the summaries by period *)




Lemma elem_of_group_keys (data : list NormalizedRecord) (k : string * string) :
  k ∈ group_keys data <-> exists r, r ∈ data /\ group_key r = k.
Proof.
  unfold group_keys.
  rewrite merge_sort_Permutation, elem_of_remove_dups, list_elem_of_fmap.
  split; intros (r & H1 & H2); exists r; by split.
Qed.




(** ** Display order of the periods *)

Lemma order_map_index (name : string) :
  default 99%Z (order_map !! name)
  = match index_of name PERIODS with
    | Some i => Z.of_nat (S i)
    | None => 99%Z
    end.
Proof.
  unfold order_map, PERIODS. simpl index_of.
  repeat (case_decide;
          [ subst name; reflexivity
          | rewrite lookup_insert_ne by congruence ]).
  by rewrite lookup_empty.
Qed.

Lemma index_of_lt (x : string) (l : list string) (i : nat) :
  index_of x l = Some i -> (i < length l)%nat.
Proof.
  revert i. induction l as [|y l IH]; intros i; simpl; [done|].
  case_decide.
  - intros [= <-]. lia.
  - destruct (index_of x l) as [j|]; [|done].
    intros [= <-]. specialize (IH j eq_refl). lia.
Qed.

Lemma period_precedes_order_key (a b : PeriodSummary) :
  period_precedes (ps_period_name a) (ps_period_name b)
  <-> (order_key a < order_key b)%Z.
Proof.
  unfold period_precedes, order_key. rewrite !order_map_index.
  destruct (index_of (ps_period_name a) PERIODS) as [i|] eqn:Hi;
    destruct (index_of (ps_period_name b) PERIODS) as [j|] eqn:Hj;
    try apply index_of_lt in Hi; try apply index_of_lt in Hj;
    simpl in *; lia.
Qed.

#[local] Instance order_key_le_transitive : Transitive order_key_le.
Proof. unfold order_key_le. intros x y z. lia. Qed.

#[local] Instance order_key_le_total : Total order_key_le.
Proof. unfold order_key_le. intros x y. lia. Qed.

Lemma StronglySorted_lookup {A} (R : relation A) (l : list A) i j a b :
  StronglySorted R l ->
  (i < j)%nat -> l !! i = Some a -> l !! j = Some b -> R a b.
Proof.
  intros Hsorted. revert i j.
  induction Hsorted as [|x l _ IH Hall]; intros i j Hij Ha Hb; [done|].
  destruct j as [|j]; [lia|]. destruct i as [|i]; simpl in *.
  - injection Ha as <-. rewrite Forall_forall in Hall.
    apply Hall. by eapply list_elem_of_lookup_2.
  - apply (IH i j); [lia|done|done].
Qed.

Lemma trend_df_sorted (summaries : list PeriodSummary) i j a b :
  (i < j)%nat ->
  trend_df summaries !! i = Some a ->
  trend_df summaries !! j = Some b ->
  (order_key a <= order_key b)%Z.
Proof.
  apply (StronglySorted_lookup order_key_le).
  apply StronglySorted_merge_sort; apply _.
Qed.

(** C5. The trend rows are displayed in the canonical chronological order
    Q1, Q2, Q3, Q4, S1, S2, every other period name after these: the sort key
    of the code is smaller exactly when the period comes earlier in that
    order, and in the sorted rows, which are the given rows rearranged, no
    row stands before a row whose period comes earlier. The rows of S2, Q1,
    Q3, S1 are displayed as Q1, Q3, S1, S2. *)
Theorem trend_df_order :
  (forall a b : PeriodSummary,
     period_precedes (ps_period_name a) (ps_period_name b)
     <-> (order_key a < order_key b)%Z) /\
  (forall summaries : list PeriodSummary,
     trend_df summaries ≡ₚ summaries /\
     forall (i j : nat) (a b : PeriodSummary),
       (i < j)%nat ->
       trend_df summaries !! i = Some a ->
       trend_df summaries !! j = Some b ->
       ~ period_precedes (ps_period_name b) (ps_period_name a)) /\
  period_precedes "Q1" "Q2" /\ period_precedes "Q2" "Q3" /\
  period_precedes "Q3" "Q4" /\ period_precedes "Q4" "S1" /\
  period_precedes "S1" "S2" /\
  (forall name : string, name ∉ PERIODS -> period_precedes "S2" name) /\
  ps_period_name <$> trend_df example_summaries = ["Q1"; "Q3"; "S1"; "S2"] /\
  ps_period_name <$> trend_df example_summaries_other
  = ["Q2"; "S1"; "MIDTERM"].
Proof.
  split; [apply period_precedes_order_key|]. split.
  { intros summaries. split; [apply merge_sort_Permutation|].
    intros i j a b Hij Ha Hb Hearlier.
    apply period_precedes_order_key in Hearlier.
    pose proof (trend_df_sorted summaries i j a b Hij Ha Hb). lia. }
  repeat (split; [by compute|]).
  split; [|split; vm_compute; reflexivity].
  intros name Hname. unfold period_precedes.
  destruct (index_of name PERIODS) as [j|] eqn:Hj; [|by compute].
  exfalso. apply Hname. clear Hname. revert Hj.
  unfold PERIODS. simpl index_of.
  repeat (case_decide; [subst name; intros _; set_solver|]).
  done.
Qed.

(** The claim above on the first two rows displayed for S2, Q1, Q3, S1. *)
Lemma trend_df_order_witness :
  (0 < 1)%nat /\
  trend_df example_summaries !! 0%nat = Some (summary_named "Q1") /\
  trend_df example_summaries !! 1%nat = Some (summary_named "Q3") /\
  ~ period_precedes "Q3" "Q1".
Proof.
  assert (trend_df example_summaries !! 0%nat = Some (summary_named "Q1"))
    as H0 by reflexivity.
  assert (trend_df example_summaries !! 1%nat = Some (summary_named "Q3"))
    as H1 by reflexivity.
  split; [lia|]. split; [exact H0|]. split; [exact H1|].
  apply (proj2 (proj1 (proj2 trend_df_order) example_summaries)
           0%nat 1%nat (summary_named "Q1") (summary_named "Q3"));
    [lia|exact H0|exact H1].
Defined.

(** * Further properties of the program *)

(** ** Period classifier and grade normaliser *)

Lemma prefix_nonempty (p s : string) :
  p <> "" -> String.prefix p s = true -> s <> "".
Proof. intros Hp Hs ->. destruct p; [done|discriminate]. Qed.

Lemma parse_period_cases {B : PyBuiltins} (period_raw : option string) :
  let parsed := parse_period period_raw in
  parsed.2 <> "" /\
  ((parsed.1 = "Quarter" /\ String.prefix "Q" parsed.2 = true) \/
   (parsed.1 = "Semester" /\ String.prefix "Q" parsed.2 = false /\
    String.prefix "S" parsed.2 = true) \/
   (parsed.1 = "Other" /\ String.prefix "Q" parsed.2 = false /\
    String.prefix "S" parsed.2 = false)).
Proof.
  unfold parse_period. cbv zeta.
  set (value := str_upper (str_strip (default "" period_raw))).
  destruct (String.prefix "Q" value) eqn:HQ; simpl.
  { split; [by eapply prefix_nonempty; [|exact HQ]|]. left. by split. }
  destruct (String.prefix "S" value) eqn:HS; simpl.
  { split; [by eapply prefix_nonempty; [|exact HS]|]. right. left.
    by repeat split. }
  case_decide as Hvalue.
  - split; [done|]. right. right. by repeat split.
  - split; [done|]. right. right. by repeat split.
Qed.

(** X1. The classifier returns one of three type labels, decided by the first
    letter of the canonical name, and a canonical name that is never the
    empty text; the label shown in the legend of the chart is one of the
    three translated ones. *)
Theorem parse_period_labels :
  forall (B : PyBuiltins) (period_raw : option string),
    let parsed := parse_period period_raw in
    parsed.2 <> "" /\
    ((parsed.1 = "Quarter" /\ String.prefix "Q" parsed.2 = true) \/
     (parsed.1 = "Semester" /\ String.prefix "Q" parsed.2 = false /\
      String.prefix "S" parsed.2 = true) \/
     (parsed.1 = "Other" /\ String.prefix "Q" parsed.2 = false /\
      String.prefix "S" parsed.2 = false)) /\
    period_type_kz parsed.1 ∈ ["Тоқсан"; "Семестр"; "Басқа"].
Proof.
  intros B period_raw parsed.
  destruct (parse_period_cases period_raw) as (Hname & Hcases).
  fold parsed in Hname, Hcases. split; [done|]. split; [done|].
  destruct Hcases as [[-> _]|[[-> _]|[-> _]]]; vm_compute; set_solver.
Qed.

Lemma numeric_points (B : PyBuiltins) (x : Q) :
  exists p,
    score_to_points SCORE_NUMERIC (PFloat x) = Ok p /\ spec_numeric_points x p.
Proof. by apply score_to_points_bands; [apply numeric_is_not_letter|]. Qed.

(** X2. A higher numeric score never earns fewer points. *)
Theorem score_to_points_monotone :
  forall (B : PyBuiltins) (x y : Q),
    x <= y ->
    exists p q,
      score_to_points SCORE_NUMERIC (PFloat x) = Ok p /\
      score_to_points SCORE_NUMERIC (PFloat y) = Ok q /\
      p <= q.
Proof.
  intros B x y Hxy.
  destruct (numeric_points B x) as (p & Hp & Hbx).
  destruct (numeric_points B y) as (q & Hq & Hby).
  exists p, q. split; [done|]. split; [done|].
  inversion Hbx; inversion Hby; subst; first [by compute | lra].
Qed.

Lemma score_to_points_monotone_witness :
  59.5 <= 60 /\
  exists p q,
    score_to_points (B := ascii_builtins) SCORE_NUMERIC (PFloat 59.5) = Ok p /\
    score_to_points (B := ascii_builtins) SCORE_NUMERIC (PFloat 60) = Ok q /\
    p <= q.
Proof.
  assert (59.5 <= 60) as Hle by (by compute).
  split; [exact Hle|].
  exact (score_to_points_monotone ascii_builtins 59.5 60 Hle).
Defined.


(** ** Normalisation of a table *)

Lemma normalize_df_rows {B : PyBuiltins} (df : list GradeRecord)
    (data : list NormalizedRecord) :
  normalize_df df = Ok data ->
  Forall2 (fun row r => normalize_row row = Ok r) df data.
Proof. apply mapM_result_Forall2. Qed.

(** X3. A normalised table has one row for each record, in the order of the
    records and with the raw columns unchanged; each row carries the points
    of its grade, their product with the credits and the classification of
    its period. *)
Theorem normalize_df_keeps_rows :
  forall (B : PyBuiltins) (df : list GradeRecord)
         (data : list NormalizedRecord),
    normalize_df df = Ok data ->
    raw <$> data = df /\
    record_count data = length df /\
    Forall (fun r =>
      score_to_points (score_type (raw r)) (grade (raw r))
        = Ok (gpa_points r) /\
      weighted_points r = gpa_points r * row_credits r /\
      (period_type r, period_name r) = parse_period (Some (period (raw r))) /\
      subject_display r = subject_with_emoji (subject (raw r))) data.
Proof.
  intros B df data Hdata. apply normalize_df_rows in Hdata.
  induction Hdata as [|row r df data Hr _ (IH1 & IH2 & IH3)].
  - by repeat split.
  - pose proof (normalize_row_inv row r Hr) as (Hraw & Hp & Hw & Hper).
    split; [|split].
    + rewrite fmap_cons. by f_equal.
    + unfold record_count in *. simpl. by f_equal.
    + constructor; [|done]. unfold row_credits. rewrite Hraw.
      repeat split; try done.
      unfold normalize_row in Hr. rewrite Hp in Hr. by injection Hr as <-.
Qed.

Lemma normalize_df_keeps_rows_witness :
  exists data,
    normalize_df (B := ascii_builtins) initial_records = Ok data /\
    raw <$> data = initial_records /\
    record_count data = 6%nat.
Proof.
  destruct (normalize_df (B := ascii_builtins) initial_records)
    as [data|e] eqn:Hdata; [|by vm_compute in Hdata].
  exists data. split; [reflexivity|].
  destruct (normalize_df_keeps_rows ascii_builtins initial_records data Hdata)
    as (Hraw & Hcount & _).
  by split.
Defined.


(** ** Aggregator: how the overall GPA depends on the table *)











(** ** Aggregator: the summaries by period and the whole table *)














(** ** The tables by quarter and by semester *)

#[local] Instance name_le_total : Total name_le.
Proof.
  intros a b. unfold name_le.
  destruct (String.leb_total a.1 b.1) as [H|H]; [left|right]; by rewrite H.
Qed.

Lemma prefix_Q_not_S (s : string) :
  String.prefix "Q" s = true -> String.prefix "S" s = false.
Proof.
  destruct s as [|c s]; [done|]. cbn [String.prefix].
  destruct (ascii_dec "Q" c) as [<-|]; [|done]. intros _.
  by destruct (ascii_dec "S" "Q").
Qed.

Lemma elem_of_period_table (ty : string) (summaries : list PeriodSummary)
    (row : string * Q) :
  row ∈ period_table ty summaries
  <-> exists s, s ∈ summaries /\ ps_period_type s = ty /\
                row = (ps_period_name s, gpa s).
Proof.
  unfold period_table.
  rewrite merge_sort_Permutation, list_elem_of_fmap.
  split.
  - intros (s & -> & Hs). apply list_elem_of_filter in Hs as [Hty Hs].
    by exists s.
  - intros (s & Hs & Hty & ->). exists s. split; [done|].
    by apply list_elem_of_filter.
Qed.

Lemma period_table_sorted (ty : string) (summaries : list PeriodSummary) :
  Sorted name_le (period_table ty summaries).
Proof. apply Sorted_merge_sort, _. Qed.

Lemma summary_in_period_gpa {B : PyBuiltins} (df : list GradeRecord)
    (data : list NormalizedRecord) (s : PeriodSummary) :
  normalize_df df = Ok data ->
  s ∈ period_gpa data ->
  exists period_raw,
    (ps_period_type s, ps_period_name s) = parse_period (Some period_raw) /\
    exists row, row ∈ df /\ period row = period_raw.
Proof.
  intros Hdata Hs. apply list_elem_of_fmap in Hs as (k & -> & Hk).
  apply elem_of_group_keys in Hk as (r & Hr & <-).
  apply normalize_df_rows in Hdata.
  apply list_elem_of_lookup in Hr as [i Hi].
  destruct (Forall2_lookup_r _ _ _ _ _ Hdata Hi) as (row & Hrow & Hnorm).
  apply normalize_row_inv in Hnorm as (_ & _ & _ & Hparsed).
  exists (period row). split; [done|].
  exists row. split; [|done]. by eapply list_elem_of_lookup_2.
Qed.

(** X10. For the summaries of a normalised table, the quarter table lists exactly
    the periods whose canonical name starts with Q and the semester table
    exactly those whose name starts with S; a period classified as Other is
    in neither table. Both tables are in ascending order of the names, and
    a panel shows its empty notice exactly when its table has no row. *)
Theorem period_tables_by_first_letter :
  forall (B : PyBuiltins) (df : list GradeRecord)
         (data : list NormalizedRecord),
    normalize_df df = Ok data ->
    let summaries := period_gpa data in
    Sorted name_le (q_df summaries) /\
    Sorted name_le (sem_df summaries) /\
    (forall s, s ∈ summaries ->
       ((ps_period_name s, gpa s) ∈ q_df summaries
        <-> String.prefix "Q" (ps_period_name s) = true) /\
       ((ps_period_name s, gpa s) ∈ sem_df summaries
        <-> String.prefix "S" (ps_period_name s) = true) /\
       (ps_period_type s = "Other" ->
        ((ps_period_name s, gpa s) ∉ q_df summaries) /\
        ((ps_period_name s, gpa s) ∉ sem_df summaries))) /\
    (forall row, row ∈ q_df summaries \/ row ∈ sem_df summaries ->
       exists s, s ∈ summaries /\ row = (ps_period_name s, gpa s)) /\
    ((exists msg, quarter_panel summaries = panel_info msg)
     <-> forall s, s ∈ summaries -> ps_period_type s <> "Quarter") /\
    ((exists msg, semester_panel summaries = panel_info msg)
     <-> forall s, s ∈ summaries -> ps_period_type s <> "Semester").
Proof.
  intros B df data Hdata summaries.
  assert (forall s, s ∈ summaries ->
            (ps_period_type s = "Quarter" /\
             String.prefix "Q" (ps_period_name s) = true) \/
            (ps_period_type s = "Semester" /\
             String.prefix "Q" (ps_period_name s) = false /\
             String.prefix "S" (ps_period_name s) = true) \/
            (ps_period_type s = "Other" /\
             String.prefix "Q" (ps_period_name s) = false /\
             String.prefix "S" (ps_period_name s) = false)) as Hlabels.
  { intros s Hs.
    destruct (summary_in_period_gpa df data s Hdata Hs) as (p & Hp & _).
    pose proof (parse_period_cases (Some p)) as [_ Hcases].
    rewrite <- Hp in Hcases. exact Hcases. }
  assert (forall ty s,
            s ∈ summaries ->
            ((ps_period_name s, gpa s) ∈ period_table ty summaries
             <-> ps_period_type s = ty)) as Htable.
  { intros ty s Hs. rewrite elem_of_period_table. split.
    - intros (s' & Hs' & Hty & [= Hname _]).
      destruct (Hlabels s Hs) as [[-> H1]|[[-> [H1 H2]]|[-> [H1 H2]]]];
        destruct (Hlabels s' Hs') as [[Ht' H3]|[[Ht' [H3 H4]]|[Ht' [H3 H4]]]];
        rewrite <- Hname in *; congruence.
    - intros Hty. by exists s. }
  split; [apply period_table_sorted|]. split; [apply period_table_sorted|].
  split; [|split; [|split]].
  - intros s Hs. unfold q_df, sem_df. rewrite !Htable by done.
    destruct (Hlabels s Hs) as [[Ht H1]|[[Ht [H1 H2]]|[Ht [H1 H2]]]];
      rewrite Ht, ?H1, ?H2, ?(prefix_Q_not_S _ H1); repeat split; done.
  - intros row [Hrow|Hrow];
      apply elem_of_period_table in Hrow as (s & Hs & _ & ->); by exists s.
  - unfold quarter_panel, q_df. split.
    + intros [msg Hpanel] s Hs Hty.
      assert ((ps_period_name s, gpa s) ∈ period_table "Quarter" summaries)
        as Hin by (by apply Htable).
      destruct (period_table "Quarter" summaries); [|done].
      by apply not_elem_of_nil in Hin.
    + intros Hnone.
      destruct (period_table "Quarter" summaries) as [|row rows] eqn:Ht;
        [by eexists|].
      assert (row ∈ period_table "Quarter" summaries) as Hin
        by (rewrite Ht; apply list_elem_of_here).
      apply elem_of_period_table in Hin as (s & Hs & Hty & _).
      by destruct (Hnone s Hs).
  - unfold semester_panel, sem_df. split.
    + intros [msg Hpanel] s Hs Hty.
      assert ((ps_period_name s, gpa s) ∈ period_table "Semester" summaries)
        as Hin by (by apply Htable).
      destruct (period_table "Semester" summaries); [|done].
      by apply not_elem_of_nil in Hin.
    + intros Hnone.
      destruct (period_table "Semester" summaries) as [|row rows] eqn:Ht;
        [by eexists|].
      assert (row ∈ period_table "Semester" summaries) as Hin
        by (rewrite Ht; apply list_elem_of_here).
      apply elem_of_period_table in Hin as (s & Hs & Hty & _).
      by destruct (Hnone s Hs).
Qed.

Lemma period_tables_by_first_letter_witness :
  exists data,
    normalize_df (B := ascii_builtins) initial_records = Ok data /\
    Sorted name_le (q_df (period_gpa data)) /\
    Sorted name_le (sem_df (period_gpa data)) /\
    (q_df (period_gpa data)).*1 = ["Q1"; "Q2"] /\
    (sem_df (period_gpa data)).*1 = ["S1"; "S2"].
Proof.
  destruct (normalize_df (B := ascii_builtins) initial_records)
    as [data|e] eqn:Hdata; [|by vm_compute in Hdata].
  exists data. split; [reflexivity|].
  destruct (period_tables_by_first_letter ascii_builtins initial_records data
              Hdata) as (Hq & Hsem & _).
  split; [exact Hq|]. split; [exact Hsem|].
  vm_compute in Hdata. injection Hdata as <-. split; vm_compute; reflexivity.
Defined.

(** ** The session: clearing, loading random data, the metric cards *)

Lemma remove_dups_NoDup_length {A} `{EqDecision A} (l : list A) :
  NoDup l -> length (remove_dups l) = length l.
Proof.
  intros Hl. apply Permutation_length, NoDup_Permutation;
    [apply NoDup_remove_dups|done|apply elem_of_remove_dups].
Qed.

Lemma render_report {B : PyBuiltins} (st : session_state)
    (data : list NormalizedRecord) :
  records st <> [] ->
  normalize_df (records st) = Ok data ->
  render st = Ok (report data (calculate_overall_gpa data) (period_gpa data)
                    (trend_df (period_gpa data))).
Proof.
  intros Hne Hdata. unfold render.
  destruct (records st) as [|row df]; [done|]. by rewrite Hdata.
Qed.



Lemma generated_records_normalize {B : PyBuiltins} (rs : list GradeRecord) :
  Forall generated_record rs ->
  exists data,
    normalize_df rs = Ok data /\ raw <$> data = rs /\ Forall on_scale data.
Proof.
  intros Hall.
  assert (Forall record_invariant rs) as Hinv.
  { eapply Forall_impl; [exact Hall|]. intros r Hr.
    by apply in_widget_range_invariant, generated_record_in_range. }
  destruct (normalize_df_valid rs Hinv) as [data Hdata].
  exists data. split; [done|]. split.
  - pose proof (normalize_df_rows rs data Hdata) as Hrows.
    clear Hdata Hinv Hall.
    induction Hrows as [|row r rs data Hr _ IH]; [done|].
    rewrite fmap_cons. f_equal; [|done].
    by apply normalize_row_inv in Hr as (Hraw & _).
  - eapply normalize_df_on_scale; [|exact Hdata].
    eapply Forall_impl; [exact Hinv|]. by intros r [Hc _].
Qed.

(** X12. The random button never fails and keeps the student card; the page that
    follows shows six records of six different subjects and an overall GPA
    within [0, 4], whatever the session before and the random draws. *)
Theorem randomize_then_render :
  forall (B : PyBuiltins) (st : session_state) (tape : list nat),
    exists st' shown tape' calc_df overall_gpa summaries trend,
      randomize_button st tape = (Ok (st', shown), tape') /\
      student_info st' = student_info st /\
      render st' = Ok (report calc_df overall_gpa summaries trend) /\
      raw <$> calc_df = records st' /\
      record_count calc_df = 6%nat /\
      subject_count calc_df = 6%nat /\
      0 <= overall_gpa <= 4.
Proof.
  intros B st tape.
  destruct (generate_random_records_ok 6 tape)
    as (rs & tape' & Hgen & Hlen & Hnodup & Hall); [lia|].
  destruct (generated_records_normalize rs Hall) as (data & Hdata & Hraw & Hscale).
  assert (length data = 6%nat) as Hcount.
  { rewrite <- (length_fmap raw), Hraw, Hlen. done. }
  exists (set_records rs st), (success "Кездейсоқ деректер жүктелді."), tape',
    data, (calculate_overall_gpa data), (period_gpa data),
    (trend_df (period_gpa data)).
  split; [|split; [done|split; [|split; [done|split; [done|split]]]]].
  - unfold randomize_button. by rewrite (rand_bind_ok _ _ _ _ _ Hgen).
  - apply render_report; [|done]. simpl. intros ->. done.
  - unfold subject_count.
    rewrite (list_fmap_compose raw subject), Hraw.
    rewrite remove_dups_NoDup_length by done. by rewrite length_fmap.
  - by apply overall_gpa_on_scale.
Qed.

(** X13. A count of ten or more yields every subject of the catalog exactly
    once. *)
Theorem generate_random_records_whole_catalog :
  forall (size : Z) (tape : list nat),
    (10 <= size)%Z ->
    exists rs tape',
      generate_random_records size tape = (Ok rs, tape') /\
      subject <$> rs ≡ₚ RANDOM_SUBJECTS.
Proof.
  intros size tape Hsize. unfold generate_random_records.
  change (Z.of_nat (length RANDOM_SUBJECTS)) with 10%Z.
  rewrite Z.min_r by done.
  destruct (random_sample_ok RANDOM_SUBJECTS 10 tape)
    as (subjects & t1 & Hsample & Hlen & Hsub); [done|].
  rewrite (rand_bind_ok _ _ _ _ _ Hsample).
  destruct (mapM_random_record_ok subjects t1) as (rs & t2 & Hrs & Hsubj & _).
  { apply Forall_forall. intros s Hs. by eapply elem_of_submseteq. }
  exists rs, t2. split; [done|]. rewrite Hsubj.
  apply submseteq_length_Permutation; [done|]. rewrite Hlen. done.
Qed.

Lemma generate_random_records_whole_catalog_witness :
  (10 <= 12)%Z /\
  exists rs tape',
    generate_random_records 12 [5; 0; 7; 2]%nat = (Ok rs, tape') /\
    subject <$> rs ≡ₚ RANDOM_SUBJECTS.
Proof.
  split; [lia|].
  apply (generate_random_records_whole_catalog 12 [5; 0; 7; 2]%nat). lia.
Defined.

(** ** The periods of a reachable session *)

Lemma reachable_periods {B : PyBuiltins} (st : session_state) :
  reachable st -> Forall (fun r => period r ∈ PERIODS) (records st).
Proof.
  induction 1 as [|st card _ IH|st subj cr ty gr per _ IH Hwidget
                  |st tape st' shown tape' _ IH Hrandom|st _ IH].
  - unfold initial_state, initial_records. simpl.
    repeat constructor; set_solver.
  - exact IH.
  - unfold add_record_form. case_decide; [exact IH|]. simpl.
    apply Forall_app. split; [exact IH|]. apply Forall_singleton.
    by destruct Hwidget as (_ & _ & Hperiod).
  - destruct (generate_random_records_ok 6 tape)
      as (rs & tape1 & Hgen & _ & _ & Hall); [lia|].
    unfold randomize_button in Hrandom.
    rewrite (rand_bind_ok _ _ _ _ _ Hgen) in Hrandom.
    injection Hrandom as <- _ _. simpl.
    eapply Forall_impl; [exact Hall|]. by intros r (_ & _ & Hperiod & _).
  - apply Forall_nil_2.
Qed.

Lemma parse_period_canonical {B : PyBuiltins} (p : string) :
  p ∈ PERIODS ->
  str_upper (str_strip p) = p ->
  parse_period (Some p)
  = (if String.prefix "Q" p then "Quarter" else "Semester", p).
Proof.
  intros Hp Hfixed. unfold parse_period. cbv zeta.
  change (default "" (Some p)) with p. rewrite Hfixed.
  unfold PERIODS in Hp.
  repeat (apply elem_of_cons in Hp as [->|Hp]; [reflexivity|]).
  by apply not_elem_of_nil in Hp.
Qed.

Lemma order_key_canonical (s : PeriodSummary) :
  ps_period_name s ∈ PERIODS -> (1 <= order_key s <= 6)%Z.
Proof.
  unfold order_key, PERIODS. intros Hp.
  repeat (apply elem_of_cons in Hp as [->|Hp]; [by vm_compute|]).
  by apply not_elem_of_nil in Hp.
Qed.

(** X14. When trimming and uppercasing leave the six period names as they are,
    as Python's do, no period of a reachable session is classified as Other:
    every summary of the page is a quarter or a semester of the canonical
    list, and is sorted in the chart by a key from 1 to 6. *)
Theorem reachable_periods_canonical :
  forall (B : PyBuiltins) (st : session_state) calc_df overall_gpa
         summaries trend,
    Forall (fun p => str_upper (str_strip p) = p) PERIODS ->
    reachable st ->
    render st = Ok (report calc_df overall_gpa summaries trend) ->
    Forall (fun s =>
      ps_period_name s ∈ PERIODS /\
      ps_period_type s ∈ ["Quarter"; "Semester"] /\
      (1 <= order_key s <= 6)%Z) summaries.
Proof.
  intros B st calc_df overall summaries trend Hfixed Hreach Hrender.
  pose proof (reachable_periods st Hreach) as Hperiods.
  unfold render in Hrender.
  destruct (records st) as [|row df] eqn:Hrecords; [done|].
  destruct (normalize_df (row :: df)) as [data|] eqn:Hdata; [|done].
  injection Hrender as <- _ <- _.
  apply Forall_forall. intros s Hs.
  destruct (summary_in_period_gpa _ _ s Hdata Hs)
    as (p & Hparsed & row' & Hrow' & <-).
  rewrite Forall_forall in Hperiods. specialize (Hperiods row' Hrow').
  rewrite Forall_forall in Hfixed. specialize (Hfixed _ Hperiods).
  rewrite (parse_period_canonical _ Hperiods Hfixed) in Hparsed.
  injection Hparsed as Hty Hname. rewrite <- Hname in Hperiods.
  split; [done|]. split.
  - rewrite Hty. destruct (String.prefix "Q" (period row'));
      [apply list_elem_of_here|apply list_elem_of_further, list_elem_of_here].
  - by apply order_key_canonical.
Qed.

Lemma reachable_periods_canonical_witness :
  exists calc_df overall_gpa summaries trend,
    render (B := ascii_builtins) initial_state
    = Ok (report calc_df overall_gpa summaries trend) /\
    Forall (fun s =>
      ps_period_name s ∈ PERIODS /\
      ps_period_type s ∈ ["Quarter"; "Semester"] /\
      (1 <= order_key s <= 6)%Z) summaries.
Proof.
  destruct (reachable_render (B := ascii_builtins) initial_state reach_initial)
    as [shown Hshown].
  destruct shown as [|calc_df overall summaries trend];
    [by vm_compute in Hshown|].
  exists calc_df, overall, summaries, trend. split; [exact Hshown|].
  apply (reachable_periods_canonical ascii_builtins initial_state calc_df
           overall summaries trend); [|apply reach_initial|exact Hshown].
  repeat constructor.
Defined.

(** ** The PDF report *)

Lemma drawn_texts_draw_lines font_name page_height lines y :
  drawn_texts (draw_lines font_name page_height lines y) = lines.
Proof.
  revert y. induction lines as [|line lines IH]; intros y; [done|].
  cbn [draw_lines]. destruct (Qlt_le_dec y 40); unfold drawn_texts in *;
    cbn [omap list_omap]; by rewrite IH.
Qed.

Lemma draw_lines_within_page font_name page_height lines y :
  80 <= page_height ->
  y <= page_height - 40 ->
  Forall (fun op =>
    match op with
    | drawString x y' _ => x = 40 /\ 40 <= y' <= page_height - 40
    | _ => True
    end) (draw_lines font_name page_height lines y).
Proof.
  intros Hheight. revert y.
  induction lines as [|line lines IH]; intros y Hy; [constructor|].
  cbn [draw_lines]. destruct (Qlt_le_dec y 40) as [Hlow|Hhigh].
  - repeat constructor; [lra|lra|]. apply IH. lra.
  - repeat constructor; [done|done|]. apply IH. lra.
Qed.

Lemma draw_lines_font_after_break font_name page_height lines y (i : nat) :
  draw_lines font_name page_height lines y !! i = Some showPage ->
  draw_lines font_name page_height lines y !! S i
  = Some (setFont font_name 12).
Proof.
  revert y i. induction lines as [|line lines IH]; intros y i; [done|].
  cbn [draw_lines]. destruct (Qlt_le_dec y 40).
  - destruct i as [|[|[|i]]]; try done. apply IH.
  - destruct i as [|i]; [done|]. apply IH.
Qed.

Lemma draw_lines_fonts font_name page_height lines y :
  Forall (fun op =>
    match op with
    | setFont f size => f = font_name /\ size = 12%Z
    | _ => True
    end) (draw_lines font_name page_height lines y).
Proof.
  revert y. induction lines as [|line lines IH]; intros y; [constructor|].
  cbn [draw_lines]. destruct (Qlt_le_dec y 40); repeat constructor; apply IH.
Qed.

Lemma page_breaks_cons (op : canvas_op) (ops : list canvas_op) :
  page_breaks (op :: ops)
  = if is_page_break op then S (page_breaks ops) else page_breaks ops.
Proof.
  unfold page_breaks. rewrite filter_cons.
  destruct (is_page_break op); by case_decide.
Qed.

Lemma A4_height_value : A4_height == 106920 # 127.
Proof. reflexivity. Qed.

Lemma page_breaks_draw_lines font_name lines y (j : nat) :
  (j <= 43)%nat ->
  y == A4_height - 40 - 18 * inject_Z (Z.of_nat j) ->
  page_breaks (draw_lines font_name A4_height lines y)
  = match lines with
    | [] => 0%nat
    | _ => ((j + length lines - 1) / 43)%nat
    end.
Proof.
  revert y j. induction lines as [|line lines IH]; intros y j Hj Hy; [done|].
  assert (inject_Z (Z.of_nat j) <= 43) as Hj43.
  { change 43 with (inject_Z 43). rewrite <- Zle_Qle. lia. }
  assert (0 <= inject_Z (Z.of_nat j)) as Hj0.
  { change 0 with (inject_Z 0). rewrite <- Zle_Qle. lia. }
  rewrite A4_height_value in Hy.
  cbn [draw_lines]. destruct (Qlt_le_dec y 40) as [Hlow|Hhigh].
  - assert (j = 43%nat) as ->.
    { destruct (decide (j = 43%nat)) as [|Hne]; [done|]. exfalso.
      assert (inject_Z (Z.of_nat j) <= 42) as Hj42.
      { change 42 with (inject_Z 42). rewrite <- Zle_Qle. lia. }
      rewrite Hy in Hlow. lra. }
    rewrite !page_breaks_cons. cbn [is_page_break].
    rewrite (IH (A4_height - 40 - 18) 1%nat);
      [|lia|rewrite A4_height_value; by compute].
    destruct lines as [|line' lines]; [done|].
    cbn [length]. replace (43 + S (S (length lines)) - 1)%nat
      with (1 * 43 + (1 + S (length lines) - 1))%nat by lia.
    rewrite Nat.div_add_l by done. lia.
  - assert (j <= 42)%nat as Hj42.
    { destruct (decide (j = 43%nat)) as [->|Hne]; [|lia]. exfalso.
      rewrite Hy in Hhigh. revert Hhigh. by compute. }
    rewrite page_breaks_cons. cbn [is_page_break].
    rewrite (IH (y - 18) (S j));
      [|lia|rewrite Hy, A4_height_value, Nat2Z.inj_succ, <- Z.add_1_r,
             inject_Z_plus; change (inject_Z 1) with 1; ring].
    destruct lines as [|line' lines]; cbn [length].
    + symmetry. apply Nat.div_small. lia.
    + f_equal. lia.
Qed.

(** X15. The report draws its lines once each and in their order, whatever the
    page breaks: the ten lines of the header, the sixth being the line of the
    student's ID, then one line for each record of the table; the calls
    start with the title and the font and end with [save]. An empty table
    gives the header alone. *)
Theorem build_pdf_bytes_lines :
  forall (cell_text : list GradeRecord -> GradeRecord -> string * string)
         (arial_exists : bool) (now : string) (page_height : Q)
         (report_df : list GradeRecord) (card : StudentInfo),
    let ops := build_pdf_bytes cell_text arial_exists now page_height
                 report_df card in
    drawn_texts ops = report_lines cell_text now report_df card /\
    length (drawn_texts ops) = (10 + length report_df)%nat /\
    drawn_texts ops !! 5%nat = Some ("ID: " ++ student_id card) /\
    take 2 ops = [setTitle "GPA және үлгерім есебі";
                  setFont (pdf_font arial_exists) 12] /\
    last ops = Some save.
Proof.
  intros cell_text arial_exists now page_height report_df card ops.
  assert (drawn_texts ops = report_lines cell_text now report_df card) as Ht.
  { subst ops. unfold build_pdf_bytes, drawn_texts.
    rewrite !omap_app. cbn [omap list_omap app].
    fold (drawn_texts (draw_lines (pdf_font arial_exists) page_height
                         (report_lines cell_text now report_df card)
                         (page_height - 40))).
    rewrite drawn_texts_draw_lines. apply app_nil_r. }
  split; [exact Ht|]. rewrite Ht. split; [|split; [done|split; [done|]]].
  - unfold report_lines. rewrite length_app, length_fmap. done.
  - subst ops. unfold build_pdf_bytes.
    rewrite app_assoc. apply last_snoc.
Qed.

(** X16. On a page at least 80 points high every line is drawn at the left
    margin 40 and at a height between the bottom margin 40 and the top
    margin. *)
Theorem build_pdf_bytes_within_page :
  forall (cell_text : list GradeRecord -> GradeRecord -> string * string)
         (arial_exists : bool) (now : string) (page_height : Q)
         (report_df : list GradeRecord) (card : StudentInfo)
         (x y : Q) (text : string),
    80 <= page_height ->
    drawString x y text
      ∈ build_pdf_bytes cell_text arial_exists now page_height report_df card ->
    x = 40 /\ 40 <= y <= page_height - 40.
Proof.
  intros cell_text arial_exists now page_height report_df card x y text
    Hheight Hin.
  unfold build_pdf_bytes in Hin.
  apply elem_of_app in Hin as [Hin|Hin].
  { apply elem_of_cons in Hin as [?|Hin]; [done|].
    by apply list_elem_of_singleton in Hin. }
  apply elem_of_app in Hin as [Hin|Hin];
    [|by apply list_elem_of_singleton in Hin].
  pose proof (draw_lines_within_page (pdf_font arial_exists) page_height
                (report_lines cell_text now report_df card)
                (page_height - 40) Hheight) as Hall.
  rewrite Forall_forall in Hall. apply (Hall ltac:(lra) _ Hin).
Qed.

(** X17. After every page break the font is set again, to the font chosen at the
    start: Arial when its file exists and Helvetica otherwise, at size 12. *)
Theorem build_pdf_bytes_font :
  forall (cell_text : list GradeRecord -> GradeRecord -> string * string)
         (arial_exists : bool) (now : string) (page_height : Q)
         (report_df : list GradeRecord) (card : StudentInfo),
    let ops := build_pdf_bytes cell_text arial_exists now page_height
                 report_df card in
    (forall i : nat,
       ops !! i = Some showPage ->
       ops !! S i = Some (setFont (pdf_font arial_exists) 12)) /\
    (forall (f : string) (size : Z),
       setFont f size ∈ ops ->
       size = 12%Z /\
       f = (if arial_exists then "ArialUnicode" else "Helvetica")).
Proof.
  intros cell_text arial_exists now page_height report_df card ops.
  subst ops. unfold build_pdf_bytes.
  set (dl := draw_lines (pdf_font arial_exists) page_height
               (report_lines cell_text now report_df card)
               (page_height - 40)).
  split.
  - intros [|[|i]]; [done|done|]. cbn [app lookup list_lookup].
    change (((dl ++ [save])%list !! i = Some showPage) ->
            ((dl ++ [save])%list !! S i
             = Some (setFont (pdf_font arial_exists) 12))).
    intros Hi. destruct (decide (i < length dl)%nat) as [Hlt|Hge].
    + rewrite lookup_app_l in Hi by done.
      apply lookup_app_l_Some. by apply draw_lines_font_after_break.
    + rewrite lookup_app_r in Hi by lia.
      destruct (i - length dl)%nat as [|k]; [done|]. by destruct k.
  - intros f size Hin.
    apply elem_of_app in Hin as [Hin|Hin].
    { apply elem_of_cons in Hin as [?|Hin]; [done|].
      apply list_elem_of_singleton in Hin. injection Hin as -> ->. done. }
    apply elem_of_app in Hin as [Hin|Hin];
      [|by apply list_elem_of_singleton in Hin].
    pose proof (draw_lines_fonts (pdf_font arial_exists) page_height
                  (report_lines cell_text now report_df card)
                  (page_height - 40)) as Hall.
    rewrite Forall_forall in Hall. by destruct (Hall _ Hin) as [-> ->].
Qed.

(** X18. On A4 paper a page holds 43 lines: the report of [n] records breaks the
    page [(9 + n) / 43] times, so up to 33 records fit on one page and the
    34th starts a second one. *)
Theorem build_pdf_bytes_pages :
  forall (cell_text : list GradeRecord -> GradeRecord -> string * string)
         (arial_exists : bool) (now : string)
         (report_df : list GradeRecord) (card : StudentInfo),
    let ops := build_pdf_bytes cell_text arial_exists now A4_height
                 report_df card in
    page_breaks ops = ((9 + length report_df) / 43)%nat /\
    ((length report_df <= 33)%nat <-> page_breaks ops = 0%nat).
Proof.
  intros cell_text arial_exists now report_df card ops.
  assert (page_breaks ops = ((9 + length report_df) / 43)%nat) as Hpages.
  { subst ops. unfold build_pdf_bytes.
    cbn [app]. rewrite !page_breaks_cons. cbn [is_page_break].
    unfold page_breaks. rewrite filter_app, length_app.
    fold (page_breaks (draw_lines (pdf_font arial_exists) A4_height
                         (report_lines cell_text now report_df card)
                         (A4_height - 40))).
    rewrite (page_breaks_draw_lines _ _ _ 0%nat);
      [|lia|simpl; ring].
    change (length (filter (fun op => Is_true (is_page_break op)) [save]))
      with 0%nat.
    unfold report_lines. cbn [app length]. rewrite length_fmap.
    rewrite Nat.add_0_r.
    replace (0 + S (S (S (S (S (S (S (S (S (S (length report_df))))))))))
               - 1)%nat with (9 + length report_df)%nat by lia.
    reflexivity. }
  split; [exact Hpages|]. rewrite Hpages. split.
  - intros Hn. apply Nat.div_small. lia.
  - intros Hdiv. apply Nat.div_small_iff in Hdiv; lia.
Qed.

Lemma build_pdf_bytes_within_page_witness :
  80 <= A4_height /\
  drawString 40 (A4_height - 40) "GPA және үлгерім есебі"
    ∈ build_pdf_bytes example_cell_text true "2026-01-01 10:00:00" A4_height
        initial_records initial_student_info /\
  40 <= A4_height - 40 <= A4_height - 40.
Proof.
  assert (80 <= A4_height) as Hheight by (by compute).
  assert (drawString 40 (A4_height - 40) "GPA және үлгерім есебі"
            ∈ build_pdf_bytes example_cell_text true "2026-01-01 10:00:00"
                A4_height initial_records initial_student_info) as Hin.
  { apply list_elem_of_further, list_elem_of_further, list_elem_of_here. }
  split; [exact Hheight|]. split; [exact Hin|].
  exact (proj2 (build_pdf_bytes_within_page example_cell_text true
                  "2026-01-01 10:00:00" A4_height initial_records
                  initial_student_info _ _ _ Hheight Hin)).
Defined.

(** ** The subject shown with its icon *)

Lemma emoji_cases (s : string) :
  (s ∈ RANDOM_SUBJECTS /\
   exists icon, EMOJI_MAP !! s = Some icon /\ icon <> "📘") \/
  ((s ∉ RANDOM_SUBJECTS) /\ EMOJI_MAP !! s = None).
Proof.
  destruct (decide (s ∈ RANDOM_SUBJECTS)) as [Hin|Hnotin].
  - left. pose proof Hin as Hin'. unfold RANDOM_SUBJECTS in Hin.
    repeat (apply elem_of_cons in Hin as [->|Hin];
            [split; [exact Hin'|eexists; split; [reflexivity|discriminate]]|]).
    by apply not_elem_of_nil in Hin.
  - right. split; [done|]. unfold EMOJI_MAP.
    repeat (rewrite lookup_insert_ne
              by (intros <-; apply Hnotin; compute_done)).
    apply lookup_empty.
Qed.

(** X19. A subject is shown with an icon of its own exactly when its trimmed text
    is one of the ten subjects of the catalog, and with the book icon
    otherwise; the icon is followed by a space and the trimmed subject. *)
Theorem subject_with_emoji_icon :
  forall (B : PyBuiltins) (subject : string),
    exists icon,
      subject_with_emoji subject = icon ++ " " ++ str_strip subject /\
      (str_strip subject ∈ RANDOM_SUBJECTS <-> icon <> "📘") /\
      (str_strip subject ∈ RANDOM_SUBJECTS
       <-> EMOJI_MAP !! str_strip subject = Some icon).
Proof.
  intros B subject0. unfold subject_with_emoji. cbv zeta.
  destruct (emoji_cases (str_strip subject0))
    as [(Hin & icon & Hicon & Hbook)|(Hnotin & Hnone)].
  - exists icon. rewrite Hicon. by repeat split.
  - exists "📘". rewrite Hnone. by repeat split.
Qed.

(** ** The metric cards after a submission *)

Lemma mapM_result_app {A C} (f : A -> result C) (l1 l2 : list A)
    (k1 k2 : list C) :
  mapM f l1 = Ok k1 -> mapM f l2 = Ok k2 ->
  mapM f (l1 ++ l2)%list = Ok (k1 ++ k2)%list.
Proof.
  revert k1. induction l1 as [|x l1 IH]; intros k1 H1 H2.
  - by injection H1 as <-.
  - rewrite <- app_comm_cons, mapM_result_cons.
    rewrite mapM_result_cons in H1.
    destruct (f x) as [y|]; [|done].
    destruct (mapM f l1) as [k|]; [|done]. injection H1 as <-.
    by rewrite (IH k eq_refl H2).
Qed.

Lemma remove_dups_snoc_length {A} `{EqDecision A} (l : list A) (x : A) :
  length (remove_dups (l ++ [x])%list)
  = if decide (x ∈ l) then length (remove_dups l)
    else S (length (remove_dups l)).
Proof.
  case_decide as Hx.
  - apply Permutation_length, NoDup_Permutation;
      [apply NoDup_remove_dups|apply NoDup_remove_dups|].
    intros y. rewrite !elem_of_remove_dups, elem_of_app, list_elem_of_singleton.
    split.
    + by intros [Hy| ->].
    + intros Hy. by left.
  - change (S (length (remove_dups l))) with (length (x :: remove_dups l)).
    apply Permutation_length, NoDup_Permutation;
      [apply NoDup_remove_dups| |].
    + apply NoDup_cons. split; [|apply NoDup_remove_dups].
      by rewrite elem_of_remove_dups.
    + intros y. rewrite elem_of_cons, !elem_of_remove_dups, elem_of_app,
        list_elem_of_singleton. tauto.
Qed.

(** X20. An accepted submission on a page that shows a report adds one row below
    the rows shown before and raises the record count by one; the subject
    count rises by one when the trimmed subject is new and stays as it was
    when a record of that subject is stored already. *)
Theorem add_updates_metric_cards :
  forall (B : PyBuiltins) (st : session_state) (entered : string)
         (credits : Q) (score_type : string) (grade : pyval)
         (period : string) calc_df overall_gpa summaries trend,
    str_strip entered <> "" ->
    valid_grade score_type grade ->
    render st = Ok (report calc_df overall_gpa summaries trend) ->
    exists r overall_gpa' summaries' trend',
      render (add_record_form entered credits score_type grade period st).1
      = Ok (report (calc_df ++ [r])%list overall_gpa' summaries' trend') /\
      subject (raw r) = str_strip entered /\
      record_count (calc_df ++ [r])%list = S (record_count calc_df) /\
      subject_count (calc_df ++ [r])%list
      = if decide (str_strip entered
                     ∈ (fun r => subject (raw r)) <$> calc_df)
        then subject_count calc_df
        else S (subject_count calc_df).
Proof.
  intros B st subject0 credits0 score_type0 grade0 period0 calc_df overall
    summaries trend Hsubject Hgrade Hrender.
  assert (normalize_df (records st) = Ok calc_df) as Hdata.
  { unfold render in Hrender. destruct (records st) as [|row df]; [done|].
    destruct (normalize_df (row :: df)); [|done]. by injection Hrender as <-. }
  rewrite add_record_form_append by done.
  set (row := {| subject := str_strip subject0; credits := credits0;
                 score_type := score_type0; grade := grade0;
                 period := period0 |}).
  destruct (score_to_points_valid _ _ Hgrade) as [p Hp].
  assert (exists r, normalize_row row = Ok r) as [r Hr].
  { unfold normalize_row. simpl. rewrite Hp. by eexists. }
  assert (normalize_df [row] = Ok [r]) as Hrow.
  { unfold normalize_df. by rewrite mapM_result_cons, Hr. }
  destruct (normalize_row_inv row r Hr) as (Hraw & _).
  exists r, (calculate_overall_gpa (calc_df ++ [r])%list),
    (period_gpa (calc_df ++ [r])%list), (trend_df (period_gpa (calc_df ++ [r])%list)).
  split; [|split; [by rewrite Hraw|split]].
  - apply render_report; simpl.
    + by destruct (records st).
    + by apply mapM_result_app.
  - unfold record_count. rewrite length_app. simpl. lia.
  - unfold subject_count. rewrite fmap_app. cbn [fmap list_fmap].
    rewrite remove_dups_snoc_length, Hraw. done.
Qed.

Lemma add_updates_metric_cards_witness :
  exists calc_df r overall_gpa' summaries' trend',
    render (B := ascii_builtins)
      (add_record_form (B := ascii_builtins) " Физика " 2 SCORE_LETTER
         (PStr "B") "S2" initial_state).1
    = Ok (report (calc_df ++ [r])%list overall_gpa' summaries' trend') /\
    record_count (calc_df ++ [r])%list = 7%nat /\
    subject_count (calc_df ++ [r])%list = 6%nat.
Proof.
  destruct (reachable_render (B := ascii_builtins) initial_state reach_initial)
    as [shown Hshown].
  destruct shown as [|calc_df overall summaries trend];
    [by vm_compute in Hshown|].
  assert (str_strip (PyBuiltins := ascii_builtins) " Физика " <> "")
    as Hsubject by (vm_compute; discriminate).
  assert (valid_grade SCORE_LETTER (PStr "B")) as Hgrade.
  { left. split; [done|]. exists "B". split; [compute_done|done]. }
  destruct (add_updates_metric_cards ascii_builtins initial_state " Физика "
              2 SCORE_LETTER (PStr "B") "S2" calc_df overall summaries trend
              Hsubject Hgrade Hshown)
    as (r & overall' & summaries' & trend' & Hrender & _ & Hcount & Hsubjects).
  exists calc_df, r, overall', summaries', trend'.
  split; [exact Hrender|].
  vm_compute in Hshown. injection Hshown as <- _ _ _.
  split; [exact Hcount|]. rewrite Hsubjects. reflexivity.
Defined.
